(** * Coverage pipeline: a shallow embedding of [coverage_pipeline.py]

    The development follows the structure of [PythonCoveragePipeline]:
    Python string primitives, the target inspector
    ([_extract_function_name]), the harness generator ([_create_test_file]),
    the result parser ([_parse_test_results]), the interpreter
    ([_generate_interpretation]) and the orchestrator ([analyze]).

    Modelling conventions.
    - A Python [str] is a [string]; each [ascii] stands for one code point
      below 256.  On that range [str.isspace], [str.lower] and the regular
      expression class [\d] are exactly the functions written below.
    - A Python [int] is a [Z]; [int(...)] of a digit run is unbounded.
    - A Python [float] is a primitive binary64 [float].
    - The file system, the syntax parser and the child process are an
      explicit [world]; [analyze] threads a [state] holding the set of
      existing paths and the trace of external effects.  [print] calls are
      not part of the model. *)

From Stdlib Require Import String Ascii List ZArith Lia Bool.
From Stdlib Require Import DecimalString DecimalPos.
From Stdlib Require Import Floats.
From stdpp Require Import gmap strings.
Import ListNotations.

(** ** Python string primitives *)

Module PyStr.

Definition nl : string := String "010"%char EmptyString.
Definition dquote : string := String "034"%char EmptyString.

(** [str.isspace] on one code point below 256. *)
Definition isspace (c : ascii) : bool :=
  let n := nat_of_ascii c in
  ((9 <=? n) && (n <=? 13)) || ((28 <=? n) && (n <=? 32))
  || (n =? 133) || (n =? 160).

(** The class [\d] of [re] on a [str] pattern, below 256: [0-9]. *)
Definition isdigit (c : ascii) : bool :=
  let n := nat_of_ascii c in (48 <=? n) && (n <=? 57).

Fixpoint lstrip (s : string) : string :=
  match s with
  | EmptyString => EmptyString
  | String c s' => if isspace c then lstrip s' else s
  end.

Fixpoint rstrip (s : string) : string :=
  match s with
  | EmptyString => EmptyString
  | String c s' =>
      match rstrip s' with
      | EmptyString => if isspace c then EmptyString else String c EmptyString
      | r => String c r
      end
  end.

(** [s.strip()] *)
Definition strip (s : string) : string := rstrip (lstrip s).

(** [s.startswith(p)] *)
Definition startswith (s p : string) : bool := String.prefix p s.

(** [str.lower] on one code point below 256: [A-Z] and the accented
    capitals [0xC0-0xDE] other than the multiplication sign. *)
Definition lower_char (c : ascii) : ascii :=
  let n := nat_of_ascii c in
  if ((65 <=? n) && (n <=? 90))
     || ((192 <=? n) && (n <=? 222) && negb (n =? 215))
  then ascii_of_nat (n + 32) else c.

Fixpoint lower (s : string) : string :=
  match s with
  | EmptyString => EmptyString
  | String c s' => String (lower_char c) (lower s')
  end.

(** [sub in s] *)
Fixpoint contains (sub s : string) : bool :=
  String.prefix sub s ||
  match s with
  | EmptyString => false
  | String _ s' => contains sub s'
  end.

Fixpoint take (k : nat) (s : string) : string :=
  match k, s with
  | S k', String c s' => String c (take k' s')
  | _, _ => EmptyString
  end.

Fixpoint drop (k : nat) (s : string) : string :=
  match k, s with
  | S k', String _ s' => drop k' s'
  | _, _ => s
  end.

(** [str(z)] for an [int]. *)
Definition str_int (z : Z) : string := NilZero.string_of_int (Z.to_int z).

Definition digit_val (c : ascii) : Z := Z.of_nat (nat_of_ascii c) - 48.

Fixpoint int_digits_from (acc : Z) (s : string) : Z :=
  match s with
  | EmptyString => acc
  | String c s' => int_digits_from (10 * acc + digit_val c) s'
  end.

(** [s] is made of digits only. *)
Fixpoint all_digits (s : string) : bool :=
  match s with
  | EmptyString => true
  | String c s' => isdigit c && all_digits s'
  end.

(** [int(s)] for a run of decimal digits [s]. *)
Definition int_of_digits (s : string) : Z := int_digits_from 0 s.

End PyStr.

(** ** Result parser: pass/fail counts *)

(** Length of the longest run of [\d] at the head of [s]. *)
Fixpoint digit_run (s : string) : nat :=
  match s with
  | String c s' => if PyStr.isdigit c then S (digit_run s') else 0
  | EmptyString => 0
  end.

(** The greedy [(\d+)] followed by the literal [lit], anchored at the head of
    [s]: the group first takes [k] digits and gives one back at a time while
    the literal does not follow; a group of no digit is no match. *)
Fixpoint re_backtrack (lit : string) (k : nat) (s : string) : option string :=
  match k with
  | O => None
  | S k' =>
      if PyStr.startswith (PyStr.drop k s) lit then Some (PyStr.take k s)
      else re_backtrack lit k' s
  end.

Definition re_match_here (lit s : string) : option string :=
  re_backtrack lit (digit_run s) s.

(** [re.search(r'(\d+)' + lit, s)]: the match at the leftmost position that
    has one; the result is [group(1)]. *)
Fixpoint re_search (lit s : string) : option string :=
  match re_match_here lit s with
  | Some g => Some g
  | None =>
      match s with
      | EmptyString => None
      | String _ s' => re_search lit s'
      end
  end.

(** [int(m.group(1)) if m else 0] *)
Definition count_or_zero (m : option string) : Z :=
  match m with
  | Some g => PyStr.int_of_digits g
  | None => 0
  end.

Definition _parse_test_results (output : string) (total_tests : Z) : Z * Z :=
  let passed_match := re_search " passed" output in
  let failed_match := re_search " failed" output in
  let passed := count_or_zero passed_match in
  let failed := count_or_zero failed_match in
  if (passed =? 0)%Z && (failed =? 0)%Z then
    if PyStr.contains "passed" (PyStr.lower output)
    then (total_tests, failed)
    else (passed, total_tests)
  else (passed, failed).

(** ** Interpreter *)

(** Truth value of an [Optional[float]]: [None] and zero are false. *)
Definition truthy (x : option float) : bool :=
  match x with
  | None => false
  | Some v => negb (v =? 0)%float
  end.

Definition _generate_interpretation
    (passed failed : Z) (line_cov : float) (branch_cov : option float) : string :=
  if (0 <? failed)%Z then
    PyStr.str_int failed +:+ " test(s) failed - fix failing tests first"
  else if (line_cov <? 50)%float then
    "Low line coverage - significant untested code paths"
  else if (line_cov <? 80)%float then
    "Moderate line coverage - some untested code paths"
  else
    let after_branch_check :=
      if (90 <=? line_cov)%float then
        if truthy branch_cov
           && match branch_cov with Some b => (90 <=? b)%float | None => false end
        then "Excellent coverage - well-tested code"
        else if truthy branch_cov
        then "Good line coverage but some branches untested"
        else "Good line coverage achieved"
      else "Adequate coverage" in
    match branch_cov with
    | Some b =>
        if (b <? 50)%float then
          "Low branch coverage - untested conditional logic and error paths"
        else if (b <? 80)%float then
          "Moderate branch coverage - some conditional branches untested"
        else after_branch_check
    | None => after_branch_check
    end.

(** ** Target inspector *)

(** The node classes [_extract_function_name] tells apart, and the syntax
    tree as [ast.iter_child_nodes] presents it: a node and its child nodes
    in field order. *)
Inductive ast_kind : Type :=
| Module
| FunctionDef (name : string)
| AsyncFunctionDef (name : string)
| ClassDef (name : string)
| OtherNode.

#[warnings="-register-all"]
Inductive ast : Type :=
| Node (kind : ast_kind) (children : list ast).

Definition kind_of (t : ast) : ast_kind := let 'Node k _ := t in k.
Definition iter_child_nodes (t : ast) : list ast := let 'Node _ cs := t in cs.

Fixpoint size (t : ast) : nat :=
  let 'Node _ cs := t in S (list_sum (map size cs)).

Definition forest_size (q : list ast) : nat := list_sum (map size q).

(** [ast.walk]: a queue of nodes still to visit; each round pops the head,
    pushes its children at the back and yields it.  [fuel] bounds the
    number of rounds. *)
Fixpoint walk_loop (fuel : nat) (todo : list ast) : list ast :=
  match fuel, todo with
  | S fuel', node :: rest =>
      node :: walk_loop fuel' (rest ++ iter_child_nodes node)
  | _, _ => []
  end.

Definition walk (t : ast) : list ast := walk_loop (size t) [t].

(** [isinstance(node, ast.FunctionDef) and not node.name.startswith('_')] *)
Definition public_function (t : ast) : option string :=
  match kind_of t with
  | FunctionDef name =>
      if negb (PyStr.startswith name "_") then Some name else None
  | _ => None
  end.

(** The [for] loop over the generator, left at the first [return]. *)
Fixpoint first_public (nodes : list ast) : option string :=
  match nodes with
  | [] => None
  | node :: rest =>
      match public_function node with
      | Some name => Some name
      | None => first_public rest
      end
  end.

(** [parsed] is the outcome of [open], [read] and [ast.parse]: [None] when
    one of them raised, otherwise the child nodes of the [Module] returned. *)
Definition _extract_function_name (parsed : option (list ast)) : string :=
  match parsed with
  | Some body =>
      match first_public (walk (Node Module body)) with
      | Some name => name
      | None => "candidate"
      end
  | None => "candidate"
  end.

(** [subnode n t]: [n] is [t] or one of its descendants. *)
Inductive subnode (n : ast) : ast -> Prop :=
| subnode_here : subnode n n
| subnode_below kind children child :
    child ∈ children -> subnode n child -> subnode n (Node kind children).

(** Identifiers the parser produces are never empty: every name in the
    tree has a character. *)
Fixpoint names_ok (t : ast) : bool :=
  let 'Node kind children := t in
  match kind with
  | FunctionDef name | AsyncFunctionDef name | ClassDef name =>
      negb (String.eqb name "")
  | Module | OtherNode => true
  end && forallb names_ok children.

Definition identifiers_nonempty (parsed : option (list ast)) : bool :=
  match parsed with
  | Some body => forallb names_ok body
  | None => true
  end.

(** ** Harness generator: the text of the test module *)

Definition triple_quote : string :=
  PyStr.dquote +:+ PyStr.dquote +:+ PyStr.dquote.

Definition harness_header (solution_dir solution_module func_name : string)
  : string :=
  "# Auto-generated pytest test file" +:+ PyStr.nl +:+
  "import sys" +:+ PyStr.nl +:+
  "sys.path.insert(0, r'" +:+ solution_dir +:+ "')" +:+ PyStr.nl +:+
  PyStr.nl +:+
  "try:" +:+ PyStr.nl +:+
  "    from " +:+ solution_module +:+ " import " +:+ func_name +:+ PyStr.nl +:+
  "except ImportError as e:" +:+ PyStr.nl +:+
  "    print(f" +:+ PyStr.dquote +:+ "Import error: {e}" +:+ PyStr.dquote
    +:+ ")" +:+ PyStr.nl +:+
  "    " +:+ func_name +:+ " = None" +:+ PyStr.nl +:+
  PyStr.nl +:+
  "# Create alias 'candidate' to call the actual function" +:+ PyStr.nl +:+
  "candidate = " +:+ func_name +:+ PyStr.nl +:+
  PyStr.nl.

(** The body of the loop: the text appended for [test_case] at index [i]. *)
Definition test_function (i : nat) (test_case : string) : string :=
  let test_code := PyStr.strip test_case in
  let test_code :=
    if negb (PyStr.startswith test_code "assert")
    then "assert " +:+ test_code else test_code in
  "def test_case_" +:+ PyStr.str_int (Z.of_nat i) +:+ "():" +:+ PyStr.nl +:+
  "    " +:+ triple_quote +:+ "Test case " +:+ PyStr.str_int (Z.of_nat i + 1)
    +:+ triple_quote +:+ PyStr.nl +:+
  "    " +:+ test_code +:+ PyStr.nl +:+
  PyStr.nl.

(** [for i, test_case in enumerate(test_cases): test_content += ...] *)
Fixpoint add_test_functions
    (i : nat) (test_cases : list string) (test_content : string) : string :=
  match test_cases with
  | [] => test_content
  | test_case :: rest =>
      add_test_functions (S i) rest (test_content +:+ test_function i test_case)
  end.

Definition harness_text
    (solution_dir solution_module func_name : string)
    (test_cases : list string) : string :=
  add_test_functions 0 test_cases
    (harness_header solution_dir solution_module func_name).

(** The text made of the given pieces, one after the other. *)
Fixpoint splice (pieces : list string) : string :=
  match pieces with
  | [] => ""
  | piece :: rest => piece +:+ splice rest
  end.

(** ** The outside world and the effects of one call *)

Record CoverageResult : Type := {
  problem_id : string;
  tests_passed : Z;
  tests_failed : Z;
  total_tests : Z;
  line_coverage : float;
  statement_coverage : float;
  branch_coverage : option float;
  statements_covered : Z;
  statements_total : Z;
  interpretation : string;
  error_details : list string;
  html_report_path : string
}.

Record PythonCoveragePipeline : Type := { output_dir : string }.

(** How [subprocess.run] ends: the child completes with its captured
    streams (and may have written the coverage summary and the HTML tree),
    the 30 second bound expires (the exception carries what was captured so
    far), or the call raises something else. *)
Inductive run_outcome : Type :=
| Completed (stdout stderr : string) (wrote_json wrote_html : bool)
| TimedOut (captured : string)
| RunError (message : string).

(** Everything one call of [analyze] asks of its environment. *)
Record world : Type := {
  (** the directory [tempfile.mkdtemp] creates *)
  w_tmpdir : string;
  (** [open], [read] and [ast.parse] on a path *)
  w_parse_source : string -> option (list ast);
  (** [Path(p).stem] and [str(Path(p).parent.absolute())] *)
  w_stem : string -> string;
  w_parent_absolute : string -> string;
  (** writing the harness: [None] when it succeeds, the message of the
      exception otherwise *)
  w_write_harness : option string;
  (** when writing the harness fails: whether [open] had already created
      the file, the failure being that of [write] *)
  w_harness_opened : bool;
  w_pytest : run_outcome;
  (** what [_parse_coverage_json] reads out of an existing summary *)
  w_coverage_summary : float * float * option float * Z * Z;
  (** whether [shutil.rmtree] of a report directory already there
      succeeds *)
  w_report_rmtree_ok : bool;
  (** whether [shutil.copytree] of the HTML tree succeeds *)
  w_copy_ok : bool;
  (** when that copy fails: whether it had already created its destination *)
  w_copy_partial : bool;
  (** [_extract_errors], a function of the captured text alone *)
  w_extract_errors : string -> list string;
  (** whether [shutil.rmtree] of the workspace succeeds *)
  w_rmtree_ok : bool
}.

Inductive event : Type :=
| EvMkdtemp (dir : string)
| EvWriteFile (path content : string)
| EvCreateFile (path : string)
| EvRunPytest (cmd : list string) (cwd : string)
| EvCopyTree (src dst : string)
| EvRmtree (dir : string).

Record state : Type := {
  fs : gset string;      (** the paths that exist *)
  trace : list event     (** external effects so far, oldest first *)
}.

Inductive exn : Type :=
| TimeoutExpired
| OtherException (message : string).

Inductive outcome (A : Type) : Type :=
| Ret (a : A)
| Raise (e : exn).
Arguments Ret {A} a.
Arguments Raise {A} e.

Definition M (A : Type) : Type := state -> outcome A * state.

Definition ret {A} (a : A) : M A := fun st => (Ret a, st).
Definition raise {A} (e : exn) : M A := fun st => (Raise e, st).

Definition bind {A B} (m : M A) (k : A -> M B) : M B :=
  fun st =>
    match m st with
    | (Ret a, st') => k a st'
    | (Raise e, st') => (Raise e, st')
    end.

Notation "'let*' x ':=' m 'in' k" := (bind m (fun x => k))
  (at level 10, x name, m at level 100, k at level 200).
Notation "'run' m 'in' k" := (bind m (fun _ => k))
  (at level 10, m at level 100, k at level 200).

(** [try: body except ...: handler] *)
Definition try_except {A} (body : M A) (handler : exn -> M A) : M A :=
  fun st =>
    match body st with
    | (Ret a, st') => (Ret a, st')
    | (Raise e, st') => handler e st'
    end.

(** [try: body finally: final]; an exception of [final] replaces the
    pending result. *)
Definition try_finally {A} (body : M A) (final : M unit) : M A :=
  fun st =>
    match body st with
    | (r, st') =>
        match final st' with
        | (Ret _, st'') => (r, st'')
        | (Raise e, st'') => (Raise e, st'')
        end
    end.

Definition emit (e : event) : M unit :=
  fun st => (Ret tt, {| fs := fs st; trace := trace st ++ [e] |}).

Definition create_path (p : string) : M unit :=
  fun st => (Ret tt, {| fs := {[p]} ∪ fs st; trace := trace st |}).

(** [os.path.join] of the workspace and a relative name: the directory
    [tempfile.mkdtemp] returns is an absolute path, not empty and without a
    separator at its end, so that the join puts one separator in between. *)
Definition path_join (dir name : string) : string := dir +:+ "/" +:+ name.

(** The last character of [s] is the separator. *)
Fixpoint ends_with_sep (s : string) : bool :=
  match s with
  | EmptyString => false
  | String c EmptyString => Ascii.eqb c "/"
  | String _ s' => ends_with_sep s'
  end.

(** [os.path.join(a, b)] on any two parts: an absolute [b] stands alone, and
    no separator is added after an empty [a] or one that ends with it. *)
Definition os_path_join (a b : string) : string :=
  if PyStr.startswith b "/" then b
  else if String.eqb a "" || ends_with_sep a then a +:+ b
  else a +:+ "/" +:+ b.

(** [p] is [dir] or lies below it. *)
Definition under (dir p : string) : bool :=
  String.eqb p dir || String.prefix (dir +:+ "/") p.

Definition remove_tree (dir : string) : M unit :=
  fun st =>
    (Ret tt, {| fs := filter (fun p => under dir p = false) (fs st);
                trace := trace st |}).

(** [os.path.exists] *)
Definition path_exists (p : string) : M bool :=
  fun st => (Ret (bool_decide (p ∈ fs st)), st).

(** [tempfile.mkdtemp(prefix='pytest_cov_')] *)
Definition mkdtemp (w : world) : M string :=
  run emit (EvMkdtemp (w_tmpdir w)) in
  run create_path (w_tmpdir w) in
  ret (w_tmpdir w).

(** [shutil.rmtree(dir)] *)
Definition rmtree (w : world) (dir : string) : M unit :=
  run emit (EvRmtree dir) in
  if w_rmtree_ok w then remove_tree dir
  else raise (OtherException "rmtree failed").

Definition _create_test_file
    (w : world) (python_file : string) (test_cases : list string)
    (func_name temp_dir : string) : M string :=
  let test_file_path := path_join temp_dir "test_coverage.py" in
  let solution_module := w_stem w python_file in
  let solution_dir := w_parent_absolute w python_file in
  let test_content :=
    harness_text solution_dir solution_module func_name test_cases in
  match w_write_harness w with
  | Some message =>
      run (if w_harness_opened w
           then (run emit (EvCreateFile test_file_path) in
                 create_path test_file_path)
           else ret tt) in
      raise (OtherException message)
  | None =>
      run emit (EvWriteFile test_file_path test_content) in
      run create_path test_file_path in
      ret test_file_path
  end.

Definition pytest_cmd (test_file solution_module coverage_json html_temp_dir : string)
  : list string :=
  [ "pytest"; test_file; "--cov=" +:+ solution_module; "--cov-branch";
    "--cov-report=term-missing"; "--cov-report=json:" +:+ coverage_json;
    "--cov-report=html:" +:+ html_temp_dir; "-vv"; "--tb=short";
    "-p"; "no:warnings" ].

(** Returns the captured [(stdout, stderr)]. *)
Definition _run_pytest
    (w : world) (test_file python_file temp_dir : string) : M (string * string) :=
  let solution_module := w_stem w python_file in
  let coverage_json := path_join temp_dir "coverage.json" in
  let html_temp_dir := path_join temp_dir "htmlcov" in
  run emit (EvRunPytest
              (pytest_cmd test_file solution_module coverage_json html_temp_dir)
              temp_dir) in
  match w_pytest w with
  | Completed stdout stderr wrote_json wrote_html =>
      run (if wrote_json then create_path coverage_json else ret tt) in
      run (if wrote_html then create_path html_temp_dir else ret tt) in
      ret (stdout, stderr)
  | TimedOut _ => raise TimeoutExpired
  | RunError message => raise (OtherException message)
  end.

Definition _parse_coverage_json
    (w : world) (coverage_json_path python_file : string)
  : M (float * float * option float * Z * Z) :=
  let* present := path_exists coverage_json_path in
  if negb present then ret (0%float, 0%float, None, 0%Z, 0%Z)
  else ret (w_coverage_summary w).

(** [shutil.rmtree(dir)] of the report directory of an earlier run *)
Definition rmtree_report (w : world) (dir : string) : M unit :=
  run emit (EvRmtree dir) in
  if w_report_rmtree_ok w then remove_tree dir
  else raise (OtherException "rmtree failed").

(** [shutil.copytree(src, dst)]: it needs its source, and a copy that
    fails may leave the destination it had begun. *)
Definition copytree (w : world) (src dst : string) : M unit :=
  run emit (EvCopyTree src dst) in
  let* present := path_exists src in
  if w_copy_ok w && present then create_path dst
  else
    run (if w_copy_partial w && present then create_path dst else ret tt) in
    raise (OtherException "copytree failed").

Definition _save_html_report
    (self : PythonCoveragePipeline) (w : world)
    (html_temp_dir problem_id : string) : M string :=
  try_except
    (let target_dir := os_path_join (output_dir self) problem_id in
     let* present := path_exists target_dir in
     run (if present then rmtree_report w target_dir else ret tt) in
     run copytree w html_temp_dir target_dir in
     ret (os_path_join target_dir "index.html"))
    (fun _ => ret "").

(** The record of the three early exits, up to its two messages. *)
Definition aborted_result
    (problem_id : string) (test_cases : list string)
    (interpretation : string) (error_details : list string) : CoverageResult :=
  {| problem_id := problem_id;
     tests_passed := 0;
     tests_failed := Z.of_nat (length test_cases);
     total_tests := Z.of_nat (length test_cases);
     line_coverage := 0;
     statement_coverage := 0;
     branch_coverage := None;
     statements_covered := 0;
     statements_total := 0;
     interpretation := interpretation;
     error_details := error_details;
     html_report_path := "" |}.

(** The body of the [try] block. *)
Definition analyze_body
    (self : PythonCoveragePipeline) (w : world) (temp_dir : string)
    (python_file : string) (test_cases : list string) (problem_id : string)
  : M CoverageResult :=
  let* present := path_exists python_file in
  if negb present then
    ret (aborted_result problem_id test_cases
           "Error: Python file not found"
           ["File not found: " +:+ python_file])
  else
    let func_name := _extract_function_name (w_parse_source w python_file) in
    let* test_file := _create_test_file w python_file test_cases func_name temp_dir in
    let* result := _run_pytest w test_file python_file temp_dir in
    let output := fst result +:+ snd result in
    let counts := _parse_test_results output (Z.of_nat (length test_cases)) in
    let coverage_json := path_join temp_dir "coverage.json" in
    let* cov := _parse_coverage_json w coverage_json python_file in
    let '(line_cov, statement_cov, branch_cov, stmts_covered, stmts_total) := cov in
    let html_temp_dir := path_join temp_dir "htmlcov" in
    let* html_present := path_exists html_temp_dir in
    let* html_report_path :=
      (if html_present then _save_html_report self w html_temp_dir problem_id
       else ret "") in
    let interpretation :=
      _generate_interpretation (fst counts) (snd counts) line_cov branch_cov in
    let error_details := w_extract_errors w output in
    ret {| problem_id := problem_id;
           tests_passed := fst counts;
           tests_failed := snd counts;
           total_tests := Z.of_nat (length test_cases);
           line_coverage := line_cov;
           statement_coverage := statement_cov;
           branch_coverage := branch_cov;
           statements_covered := stmts_covered;
           statements_total := stmts_total;
           interpretation := interpretation;
           error_details := error_details;
           html_report_path := html_report_path |}.

(** The [except] clauses. *)
Definition analyze_handler
    (test_cases : list string) (problem_id : string) (e : exn)
  : M CoverageResult :=
  match e with
  | TimeoutExpired =>
      ret (aborted_result problem_id test_cases
             "Timeout - execution exceeded 30 seconds" ["Timeout"])
  | OtherException message =>
      ret (aborted_result problem_id test_cases
             ("Error: " +:+ message) [message])
  end.

Definition analyze
    (self : PythonCoveragePipeline) (w : world)
    (python_file : string) (test_cases : list string) (problem_id : string)
  : M CoverageResult :=
  let* temp_dir := mkdtemp w in
  try_finally
    (try_except
       (analyze_body self w temp_dir python_file test_cases problem_id)
       (analyze_handler test_cases problem_id))
    (try_except (rmtree w temp_dir) (fun _ => ret tt)).

(** The four ways out of [analyze], and the one a call takes as read off
    the world: the source is looked up once the workspace exists. *)
Inductive exit_path : Type :=
| NormalExit
| SourceNotFound
| ExecutionTimeout
| UnexpectedFailure.

Definition exit_path_of (w : world) (st : state) (python_file : string)
  : exit_path :=
  if bool_decide (python_file ∈ {[w_tmpdir w]} ∪ fs st) then
    match w_write_harness w, w_pytest w with
    | Some _, _ => UnexpectedFailure
    | None, Completed _ _ _ _ => NormalExit
    | None, TimedOut _ => ExecutionTimeout
    | None, RunError _ => UnexpectedFailure
    end
  else SourceNotFound.

Definition is_rmtree (e : event) : bool :=
  match e with EvRmtree _ => true | _ => false end.

(** ** A concrete setting for the examples *)

Module Sample.

Definition pipeline : PythonCoveragePipeline :=
  {| output_dir := "coverage_reports" |}.

Definition source : string := "/home/u/solution.py".

Definition tests : list string :=
  ["assert candidate(1) == 1"; "candidate(2) == 2"].

(** A world in which the child process ends as [pytest] says and the
    removal of the workspace succeeds or not as [rmtree_ok] says. *)
Definition world_with (pytest : run_outcome) (rmtree_ok : bool) : world :=
  {| w_tmpdir := "/tmp/pytest_cov_k3x9";
     w_parse_source :=
       fun _ => Some [Node (FunctionDef "solution") [Node OtherNode []]];
     w_stem := fun _ => "solution";
     w_parent_absolute := fun _ => "/home/u";
     w_write_harness := None;
     w_harness_opened := true;
     w_pytest := pytest;
     w_coverage_summary := (95%float, 95%float, Some 95%float, 19%Z, 20%Z);
     w_report_rmtree_ok := true;
     w_copy_ok := true;
     w_copy_partial := false;
     w_extract_errors := fun _ => [];
     w_rmtree_ok := rmtree_ok |}.

(** Before the call: the source file exists, nothing has happened. *)
Definition with_source : state := {| fs := {[source]}; trace := [] |}.

(** Before the call: no file at all. *)
Definition empty_disk : state := {| fs := ∅; trace := [] |}.

End Sample.

(** ** Auxiliary notions for the further properties *)

(** [s] holds no digit. *)
Fixpoint no_digit (s : string) : bool :=
  match s with
  | EmptyString => true
  | String c s' => negb (PyStr.isdigit c) && no_digit s'
  end.

(** The nodes [d] levels below the nodes of [q]. *)
Fixpoint level (d : nat) (q : list ast) : list ast :=
  match d with
  | O => q
  | S d' => level d' (flat_map iter_child_nodes q)
  end.

(** [s] is made of whitespace only. *)
Fixpoint all_space (s : string) : bool :=
  match s with
  | EmptyString => true
  | String c s' => PyStr.isspace c && all_space s'
  end.

(** The last character of [s] is a digit. *)
Fixpoint last_is_digit (s : string) : bool :=
  match s with
  | EmptyString => false
  | String c EmptyString => PyStr.isdigit c
  | String _ s' => last_is_digit s'
  end.

(** * Properties *)

Example parse_summary_line :
  _parse_test_results "=== 1 failed, 2 passed in 0.05s ===" 3 = (2, 1)%Z.
Proof. reflexivity. Qed.

Example parse_no_counts :
  _parse_test_results "ERROR collecting test_coverage.py" 3 = (0, 3)%Z.
Proof. reflexivity. Qed.

Example interp_95_95 :
  _generate_interpretation 3 0 95 (Some 95%float)
  = "Excellent coverage - well-tested code".
Proof. reflexivity. Qed.

(** ** String facts used below *)

#[local] Arguments String.append : simpl nomatch.

Lemma append_assoc (a b c : string) : (a +:+ b) +:+ c = a +:+ (b +:+ c).
Proof. induction a as [|x a IH]; simpl; [reflexivity | now rewrite IH]. Qed.

Lemma take_drop (k : nat) (s : string) : PyStr.take k s +:+ PyStr.drop k s = s.
Proof.
  revert s; induction k as [|k IH]; intros [|c s]; simpl; try reflexivity.
  now rewrite IH.
Qed.

Lemma prefix_split (p s : string) :
  String.prefix p s = true -> exists t, s = p +:+ t.
Proof.
  revert s; induction p as [|a p IH]; intros s H.
  - exists s; reflexivity.
  - destruct s as [|b s]; simpl in H; [discriminate|].
    destruct (ascii_dec a b) as [->|]; [|discriminate].
    destruct (IH _ H) as [t ->]. now exists t.
Qed.

Lemma prefix_append (p t : string) : String.prefix p (p +:+ t) = true.
Proof.
  induction p as [|a p IH]; simpl; [now destruct t|].
  destruct (ascii_dec a a); [exact IH | congruence].
Qed.

Lemma contains_head (sub s : string) :
  String.prefix sub s = true -> PyStr.contains sub s = true.
Proof. intros H. destruct s; cbn [PyStr.contains]; rewrite H; reflexivity. Qed.

Lemma contains_append (sub pre post : string) :
  PyStr.contains sub (pre +:+ (sub +:+ post)) = true.
Proof.
  induction pre as [|c pre IH]; simpl.
  - apply contains_head, prefix_append.
  - rewrite IH. apply orb_true_r.
Qed.

Lemma lower_append (a b : string) :
  PyStr.lower (a +:+ b) = PyStr.lower a +:+ PyStr.lower b.
Proof. induction a as [|c a IH]; simpl; [reflexivity | now rewrite IH]. Qed.

(** ** The regular expression search *)

Lemma re_backtrack_split lit k s g :
  re_backtrack lit k s = Some g -> exists post, s = g +:+ (lit +:+ post).
Proof.
  induction k as [|k IH]; cbn [re_backtrack]; [discriminate|].
  destruct (PyStr.startswith _ lit) eqn:E; [|exact IH].
  intros Hg. assert (g = PyStr.take (S k) s) as -> by congruence.
  apply prefix_split in E as [post E].
  exists post. rewrite <- E. symmetry. apply take_drop.
Qed.

Lemma re_search_split lit s g :
  re_search lit s = Some g -> exists pre post, s = pre +:+ (g +:+ (lit +:+ post)).
Proof.
  induction s as [|c s IH]; simpl.
  - unfold re_match_here; simpl. discriminate.
  - destruct (re_match_here lit (String c s)) as [g'|] eqn:E.
    + intros [= <-]. apply re_backtrack_split in E as [post E].
      exists EmptyString, post. exact E.
    + intros H. destruct (IH H) as (pre & post & ->).
      exists (String c pre), post. reflexivity.
Qed.

Lemma take_digit_run k : forall s,
  k <= digit_run s -> PyStr.all_digits (PyStr.take k s) = true.
Proof.
  induction k as [|k IH]; intros [|c s] Hk; simpl in *; try reflexivity.
  destruct (PyStr.isdigit c); [|lia]. simpl. apply IH. lia.
Qed.

Lemma re_backtrack_digits lit k s g :
  k <= digit_run s ->
  re_backtrack lit k s = Some g ->
  g <> "" /\ PyStr.all_digits g = true.
Proof.
  induction k as [|k IH]; cbn [re_backtrack]; [discriminate|].
  intros Hk. destruct (PyStr.startswith _ lit); [|apply IH; lia].
  intros Hg. assert (g = PyStr.take (S k) s) as -> by congruence.
  split; [|now apply take_digit_run].
  destruct s; simpl in *; [lia | discriminate].
Qed.

(** The group of a match is a non-empty run of digits, so its [int] is
    defined. *)
Lemma re_search_digits lit s g :
  re_search lit s = Some g -> g <> "" /\ PyStr.all_digits g = true.
Proof.
  induction s as [|c s IH]; cbn [re_search].
  - unfold re_match_here. simpl. discriminate.
  - destruct (re_match_here lit (String c s)) as [g'|] eqn:E; [|exact IH].
    intros Hg. assert (g' = g) as -> by congruence.
    eapply re_backtrack_digits; [|exact E]. lia.
Qed.

Lemma matched_output_mentions_passed output g :
  re_search " passed" output = Some g ->
  PyStr.contains "passed" (PyStr.lower output) = true.
Proof.
  intros H. apply re_search_split in H as (pre & post & ->).
  change (" passed" +:+ post) with (" " +:+ ("passed" +:+ post)).
  rewrite <- (append_assoc g), <- (append_assoc pre).
  rewrite !(lower_append _ ("passed" +:+ post)), (lower_append "passed").
  apply contains_append.
Qed.

(** ** Interpreter *)

(** Order of binary64 values against a positive finite one, on their
    specification: what is at least [(m_hi, e_hi)] is not below a smaller
    [(m_lo, e_lo)]. *)
Lemma SF_not_below (m_hi m_lo : positive) (e_hi e_lo : Z) (x : spec_float) :
  (e_lo < e_hi)%Z \/ (e_lo = e_hi /\ (m_lo < m_hi)%positive) ->
  SFleb (S754_finite false m_hi e_hi) x = true ->
  SFltb x (S754_finite false m_lo e_lo) = false.
Proof.
  intros Hlt. unfold SFleb, SFltb, SFcompare.
  destruct x as [s|s| |s m e]; try destruct s; try discriminate;
    try reflexivity.
  change (PosDef.Pos.compare_cont Eq m_hi m) with (Pos.compare m_hi m).
  change (PosDef.Pos.compare_cont Eq m m_lo) with (Pos.compare m m_lo).
  destruct (Z.compare_spec e_hi e); destruct (Z.compare_spec e e_lo);
    try reflexivity; try discriminate; try lia.
  destruct (Pos.compare_spec m_hi m); destruct (Pos.compare_spec m m_lo);
    try reflexivity; try discriminate; lia.
Qed.

(** A coverage of at least 90 passes the two earlier line-coverage tests. *)
Lemma at_least_90_not_below (x : float) :
  (90 <=? x)%float = true ->
  (x <? 50)%float = false /\ (x <? 80)%float = false.
Proof.
  rewrite leb_spec, !ltb_spec.
  assert (Prim2SF 90 = S754_finite false 6333186975989760 (-46)) as ->
      by (vm_compute; reflexivity).
  assert (Prim2SF 80 = S754_finite false 5629499534213120 (-46)) as ->
      by (vm_compute; reflexivity).
  assert (Prim2SF 50 = S754_finite false 7036874417766400 (-47)) as ->
      by (vm_compute; reflexivity).
  intros H. split; eapply SF_not_below; try exact H.
  - left. reflexivity.
  - right. split; reflexivity.
Qed.

(** C5. Whenever [failed > 0] the interpretation is the
    "N test(s) failed - fix failing tests first" message with N = failed,
    whatever the line and branch coverage are: the failure check comes
    before every coverage check. *)
Theorem failures_reported_first
    (passed failed : Z) (line_cov : float) (branch_cov : option float) :
  (failed > 0)%Z ->
  _generate_interpretation passed failed line_cov branch_cov
  = PyStr.str_int failed +:+ " test(s) failed - fix failing tests first".
Proof.
  intros H. unfold _generate_interpretation.
  destruct (Z.ltb_spec 0 failed); [reflexivity | lia].
Qed.

Lemma failures_reported_first_witness :
  _generate_interpretation 0 2 95 (Some 95%float)
  = "2 test(s) failed - fix failing tests first"%string.
Proof. apply (failures_reported_first 0 2 95 (Some 95%float)). reflexivity. Defined.

(** C6, as stated, fails: with no failure, line coverage 85 and no branch
    data the interpreter does not answer "Good line coverage achieved". *)
Lemma line_85_no_branch_is_not_good :
  _generate_interpretation 3 0 85 None <> "Good line coverage achieved"%string.
Proof. vm_compute. discriminate. Qed.

(** C6, amended. With no failure, line coverage 85 and no branch data the
    interpretation is the generic "Adequate coverage" message; with no
    failure and no branch data, "Good line coverage achieved" is the answer
    exactly when line coverage is at least 90. *)
Theorem line_85_no_branch_is_adequate (passed : Z) :
  _generate_interpretation passed 0 85 None = "Adequate coverage"%string
  /\ forall line_cov,
       _generate_interpretation passed 0 line_cov None
         = "Good line coverage achieved"%string
       <-> (90 <=? line_cov)%float = true.
Proof.
  split; [reflexivity|].
  intros line_cov. unfold _generate_interpretation. simpl. split.
  - destruct (line_cov <? 50)%float, (line_cov <? 80)%float,
      (90 <=? line_cov)%float; simpl; (discriminate || reflexivity).
  - intros H. destruct (at_least_90_not_below _ H) as [-> ->].
    now rewrite H.
Qed.

Lemma line_85_no_branch_is_adequate_witness :
  _generate_interpretation 3 0 95 None = "Good line coverage achieved".
Proof.
  apply (proj2 (proj2 (line_85_no_branch_is_adequate 3) 95%float)).
  reflexivity.
Defined.

(** ** Result parser *)

(** C8. When the pass-count and fail-count patterns both come back zero,
    the parser answers all-passed ([passed = total], [failed = 0]) if the
    lower-cased text contains "passed", and all-failed ([passed = 0],
    [failed = total]) otherwise. *)
Theorem zero_counts_fall_back (output : string) (total_tests : Z) :
  count_or_zero (re_search " passed" output) = 0%Z ->
  count_or_zero (re_search " failed" output) = 0%Z ->
  _parse_test_results output total_tests
  = if PyStr.contains "passed" (PyStr.lower output)
    then (total_tests, 0%Z) else (0%Z, total_tests).
Proof.
  intros Hp Hf. unfold _parse_test_results. rewrite Hp, Hf. reflexivity.
Qed.

Lemma zero_counts_fall_back_witness :
  _parse_test_results "test_coverage.py::test_case_0 PASSED" 4 = (4, 0)%Z
  /\ _parse_test_results "ERROR collecting test_coverage.py" 4 = (0, 4)%Z.
Proof.
  split.
  - apply (zero_counts_fall_back "test_coverage.py::test_case_0 PASSED" 4);
      reflexivity.
  - apply (zero_counts_fall_back "ERROR collecting test_coverage.py" 4);
      reflexivity.
Defined.

(** C10. When the pass-count pattern matches and the count it reports is
    zero (as in "0 passed"), and no integer-before-" failed" pattern occurs,
    the parser returns [passed = total_tests] and [failed = 0]: the reported
    zero is treated like an absent count and the all-passed fallback
    applies. *)
Theorem explicit_zero_passed_is_overridden
    (output g : string) (total_tests : Z) :
  (total_tests > 0)%Z ->
  re_search " passed" output = Some g ->
  PyStr.int_of_digits g = 0%Z ->
  re_search " failed" output = None ->
  _parse_test_results output total_tests = (total_tests, 0%Z).
Proof.
  intros _ Hm Hz Hf. unfold _parse_test_results.
  rewrite Hm, Hf. simpl. rewrite Hz. simpl.
  now rewrite (matched_output_mentions_passed _ _ Hm).
Qed.

Lemma explicit_zero_passed_is_overridden_witness :
  _parse_test_results "=== 0 passed, 3 errors in 0.40s ===" 3 = (3, 0)%Z.
Proof.
  apply (explicit_zero_passed_is_overridden
           "=== 0 passed, 3 errors in 0.40s ===" "0" 3);
    [lia | reflexivity | reflexivity | reflexivity].
Defined.

(** ** Target inspector: the breadth-first walk *)

Lemma forest_size_cons t q : forest_size (t :: q) = size t + forest_size q.
Proof. reflexivity. Qed.

Lemma forest_size_app q1 q2 :
  forest_size (q1 ++ q2) = forest_size q1 + forest_size q2.
Proof. unfold forest_size. now rewrite map_app, list_sum_app. Qed.

Lemma size_children t : size t = S (forest_size (iter_child_nodes t)).
Proof. destruct t; reflexivity. Qed.

Lemma walk_loop_nil fuel : walk_loop fuel [] = [].
Proof. destruct fuel; reflexivity. Qed.

(** Fuel beyond the size of the queued forest is never used: the queue is
    empty when [size t] rounds have run, so [walk] visits the whole tree. *)
Lemma walk_loop_enough n m q :
  forest_size q <= n -> forest_size q <= m -> walk_loop n q = walk_loop m q.
Proof.
  revert m q; induction n as [|n IH]; intros m [|t rest] Hn Hm;
    rewrite ?walk_loop_nil; try reflexivity.
  - rewrite forest_size_cons, size_children in Hn. lia.
  - rewrite forest_size_cons, size_children in Hn, Hm.
    destruct m as [|m]; [lia|]. simpl. f_equal.
    apply IH; rewrite forest_size_app; lia.
Qed.

Lemma forest_size_levels q :
  forest_size q = length q + forest_size (flat_map iter_child_nodes q).
Proof.
  induction q as [|t q IH]; [reflexivity|].
  simpl flat_map. rewrite forest_size_cons, forest_size_app, size_children, IH.
  simpl. lia.
Qed.

(** The walk is level by level: the queued nodes come out first, in order,
    followed by the walk of what they pushed. *)
Lemma walk_loop_levels q1 : forall fuel q2,
  length q1 <= fuel ->
  walk_loop fuel (q1 ++ q2)
  = q1 ++ walk_loop (fuel - length q1) (q2 ++ flat_map iter_child_nodes q1).
Proof.
  induction q1 as [|t q1 IH]; intros fuel q2 Hlen.
  - simpl. now rewrite Nat.sub_0_r, app_nil_r.
  - destruct fuel as [|fuel]; [simpl in Hlen; lia|].
    simpl in *. f_equal. rewrite <- app_assoc, IH by lia.
    now rewrite <- app_assoc.
Qed.

Lemma walk_loop_sound fuel : forall q n,
  n ∈ walk_loop fuel q -> exists r, r ∈ q /\ subnode n r.
Proof.
  induction fuel as [|fuel IH]; intros [|t rest] n Hin; simpl in Hin;
    try (apply elem_of_nil in Hin; contradiction).
  apply elem_of_cons in Hin as [-> | Hin].
  - exists t. split; [left | constructor].
  - apply IH in Hin as (r & Hr & Hsub).
    apply elem_of_app in Hr as [Hr | Hr].
    + exists r. split; [now right | exact Hsub].
    + exists t. split; [left|]. destruct t as [k cs].
      eapply subnode_below; eassumption.
Qed.

Lemma walk_loop_complete n r :
  subnode n r ->
  forall q fuel, r ∈ q -> forest_size q <= fuel -> n ∈ walk_loop fuel q.
Proof.
  induction 1 as [|kind children child Hchild Hsub IH]; intros q fuel Hin Hfuel.
  - pose proof (forest_size_levels q) as Hq.
    rewrite <- (app_nil_r q), walk_loop_levels by lia.
    apply elem_of_app. now left.
  - pose proof (forest_size_levels q) as Hq.
    rewrite <- (app_nil_r q), walk_loop_levels by lia.
    apply elem_of_app. right. simpl. apply IH; [|lia].
    apply list_elem_of_In, in_flat_map.
    exists (Node kind children). split; apply list_elem_of_In; assumption.
Qed.

Lemma walk_subnodes t n : n ∈ walk t <-> subnode n t.
Proof.
  unfold walk. split.
  - intros H. apply walk_loop_sound in H as (r & Hr & Hsub).
    apply list_elem_of_singleton in Hr as ->. exact Hsub.
  - intros H. eapply walk_loop_complete; [exact H | left |].
    rewrite forest_size_cons. unfold forest_size. simpl. lia.
Qed.

Lemma walk_module body :
  exists deeper, walk (Node Module body) = Node Module body :: body ++ deeper.
Proof.
  exists (walk_loop (forest_size body - length body)
            (flat_map iter_child_nodes body)).
  unfold walk. rewrite size_children. simpl. f_equal.
  pose proof (forest_size_levels body).
  rewrite <- (app_nil_r body) at 2. rewrite walk_loop_levels by lia.
  reflexivity.
Qed.

Lemma first_public_app l1 l2 :
  first_public (l1 ++ l2)
  = match first_public l1 with Some name => Some name | None => first_public l2 end.
Proof.
  induction l1 as [|t l1 IH]; simpl; [reflexivity|].
  now destruct (public_function t).
Qed.

Lemma first_public_none l :
  first_public l = None <-> forall n, n ∈ l -> public_function n = None.
Proof.
  induction l as [|t l IH]; simpl.
  - split; [|reflexivity]. intros _ n Hn. apply elem_of_nil in Hn. contradiction.
  - destruct (public_function t) eqn:E.
    + split; [discriminate|]. intros H. rewrite (H t) in E by left. discriminate.
    + rewrite IH. split.
      * intros H n Hn. apply elem_of_cons in Hn as [-> | Hn]; auto.
      * intros H n Hn. apply H. now right.
Qed.

Lemma first_public_some l name :
  first_public l = Some name -> exists n, n ∈ l /\ public_function n = Some name.
Proof.
  induction l as [|t l IH]; simpl; [discriminate|].
  destruct (public_function t) eqn:E.
  - intros [= ->]. exists t. split; [left | exact E].
  - intros H. destruct (IH H) as (n & Hn & Hp). exists n. split; [now right | exact Hp].
Qed.

Lemma public_function_name n name :
  public_function n = Some name ->
  kind_of n = FunctionDef name /\ PyStr.startswith name "_" = false.
Proof.
  unfold public_function. destruct (kind_of n); try discriminate.
  destruct (PyStr.startswith name0 "_") eqn:E; simpl; [discriminate|].
  intros [= ->]. now split.
Qed.

Lemma names_ok_subnode n t :
  subnode n t -> names_ok t = true -> names_ok n = true.
Proof.
  induction 1 as [|kind children child Hchild Hsub IH]; [trivial|].
  intros Hok. apply IH. simpl in Hok.
  apply andb_true_iff in Hok as [_ Hok].
  rewrite forallb_forall in Hok. now apply Hok, list_elem_of_In.
Qed.

Lemma public_name_nonempty body n name :
  forallb names_ok body = true ->
  subnode n (Node Module body) ->
  public_function n = Some name -> name <> "".
Proof.
  intros Hok Hsub Hpub. apply public_function_name in Hpub as [Hkind _].
  assert (names_ok n = true) as Hn by (eapply names_ok_subnode; eauto).
  destruct n as [k cs]. simpl in Hkind; subst k. simpl in Hn.
  apply andb_true_iff in Hn as [Hn _]. intros ->. discriminate.
Qed.

(** C7, as stated, fails: a module whose only statement is a class has no
    top-level function at all, yet the inspector answers with the name of
    the method it finds inside the class instead of "candidate". *)
Lemma method_found_without_top_level_function :
  first_public [Node (ClassDef "Solver") [Node (FunctionDef "run") [Node OtherNode []]]]
  = None
  /\ _extract_function_name
       (Some [Node (ClassDef "Solver")
                [Node (FunctionDef "run") [Node OtherNode []]]])
     = "run"
  /\ "run" <> "candidate".
Proof. split; [reflexivity | split; [reflexivity | discriminate]]. Qed.

(** C7, amended. The inspector never raises and always returns a non-empty
    string.  On a parse failure it returns "candidate".  On a parsed module
    it returns the name of the first top-level [FunctionDef] whose name does
    not begin with an underscore when there is one; it returns "candidate"
    when no [FunctionDef] anywhere in the tree has such a name; in the
    remaining case it returns the name of such a definition nested in the
    tree (the first one in breadth-first order). *)
Theorem extract_function_name_spec (parsed : option (list ast)) :
  identifiers_nonempty parsed = true ->
  _extract_function_name parsed <> ""
  /\ (parsed = None -> _extract_function_name parsed = "candidate")
  /\ (forall body, parsed = Some body ->
        (forall pre def post name,
            body = pre ++ def :: post ->
            first_public pre = None ->
            public_function def = Some name ->
            _extract_function_name parsed = name)
        /\ ((forall n, subnode n (Node Module body) -> public_function n = None) ->
            _extract_function_name parsed = "candidate")
        /\ ((exists n, subnode n (Node Module body)
                       /\ public_function n = Some (_extract_function_name parsed))
            \/ ((forall n, subnode n (Node Module body) -> public_function n = None)
                /\ _extract_function_name parsed = "candidate"))).
Proof.
  intros Hnames.
  assert (forall body, parsed = Some body ->
           (exists n, subnode n (Node Module body)
                      /\ public_function n = Some (_extract_function_name parsed))
           \/ ((forall n, subnode n (Node Module body) -> public_function n = None)
               /\ _extract_function_name parsed = "candidate")) as Hcases.
  { intros body ->. unfold _extract_function_name.
    destruct (first_public (walk (Node Module body))) as [name|] eqn:E.
    - left. apply first_public_some in E as (n & Hn & Hp).
      exists n. split; [now apply walk_subnodes | exact Hp].
    - right. split; [|reflexivity]. intros n Hn.
      eapply first_public_none; [exact E | now apply walk_subnodes]. }
  split; [|split].
  - destruct parsed as [body|]; [|discriminate].
    destruct (Hcases body eq_refl) as [(n & Hsub & Hp) | [_ ->]]; [|discriminate].
    eapply public_name_nonempty; eauto.
  - intros ->. reflexivity.
  - intros body Hbody. split; [|split].
    + intros pre def post name -> Hpre Hdef. subst parsed.
      unfold _extract_function_name.
      destruct (walk_module (pre ++ def :: post)) as [deeper ->].
      change (first_public (Node Module (pre ++ def :: post)
                              :: (pre ++ def :: post) ++ deeper))
        with (first_public ((pre ++ def :: post) ++ deeper)).
      rewrite <- app_assoc, first_public_app, Hpre. simpl. now rewrite Hdef.
    + intros Hnone. destruct (Hcases body Hbody) as [(n & Hsub & Hp) | [_ H]];
        [|exact H]. rewrite (Hnone n Hsub) in Hp. discriminate.
    + now apply Hcases.
Qed.

Lemma extract_function_name_spec_witness :
  _extract_function_name
    (Some [Node OtherNode [];
           Node (FunctionDef "_helper") [Node (FunctionDef "inner") []];
           Node (FunctionDef "solve") [Node OtherNode []];
           Node (FunctionDef "other") []])
  = "solve".
Proof.
  refine (proj1 (proj2 (proj2
            (extract_function_name_spec _ _)) _ eq_refl)
            [Node OtherNode [];
             Node (FunctionDef "_helper") [Node (FunctionDef "inner") []]]
            (Node (FunctionDef "solve") [Node OtherNode []])
            [Node (FunctionDef "other") []]
            "solve" _ _ _); reflexivity.
Defined.

(** ** Harness generator *)

Lemma append_nil_r (s : string) : s +:+ "" = s.
Proof. induction s as [|c s IH]; simpl; [reflexivity | now rewrite IH]. Qed.

Lemma add_test_functions_splice test_cases : forall i test_content,
  add_test_functions i test_cases test_content
  = test_content +:+ splice (imap (fun j => test_function (i + j)) test_cases).
Proof.
  induction test_cases as [|test_case rest IH]; intros i test_content.
  - simpl. now rewrite append_nil_r.
  - cbn [add_test_functions]. rewrite IH, imap_cons, append_assoc.
    cbn [splice]. rewrite Nat.add_0_r. do 3 f_equal.
    apply imap_ext. intros j x _. unfold compose. f_equal. lia.
Qed.

Example harness_two_cases :
  add_test_functions 0 ["assert f(1) == 1"; "  f(2) == 2  "] ""
  = "def test_case_0():" +:+ PyStr.nl +:+
    "    " +:+ triple_quote +:+ "Test case 1" +:+ triple_quote +:+ PyStr.nl +:+
    "    assert f(1) == 1" +:+ PyStr.nl +:+ PyStr.nl +:+
    "def test_case_1():" +:+ PyStr.nl +:+
    "    " +:+ triple_quote +:+ "Test case 2" +:+ triple_quote +:+ PyStr.nl +:+
    "    assert f(2) == 2" +:+ PyStr.nl +:+ PyStr.nl.
Proof. reflexivity. Qed.



(** ** Orchestrator *)

Ltac run_monad :=
  unfold analyze, mkdtemp, try_finally, try_except, analyze_body,
    analyze_handler, rmtree, _create_test_file, _run_pytest,
    _parse_coverage_json, bind, emit, create_path,
    path_exists, ret, raise, remove_tree;
  cbn [fs trace negb fst snd].

(** A harness that can be written is the text of [harness_text], at the
    fixed name inside the workspace. *)
Lemma create_test_file_writes w python_file test_cases func_name temp_dir st :
  w_write_harness w = None ->
  _create_test_file w python_file test_cases func_name temp_dir st
  = (Ret (path_join temp_dir "test_coverage.py"),
     {| fs := {[path_join temp_dir "test_coverage.py"]} ∪ fs st;
        trace := trace st
                 ++ [EvWriteFile (path_join temp_dir "test_coverage.py")
                       (harness_text (w_parent_absolute w python_file)
                          (w_stem w python_file) func_name test_cases)] |}).
Proof. intros H. unfold _create_test_file. rewrite H. reflexivity. Qed.

(** On the workspace [os.path.join] is [path_join]. *)
Lemma os_path_join_workspace dir name :
  dir <> "" -> ends_with_sep dir = false -> PyStr.startswith name "/" = false ->
  os_path_join dir name = path_join dir name.
Proof.
  intros Hne Hsep Hrel. unfold os_path_join. rewrite Hrel, Hsep.
  destruct dir; [contradiction | reflexivity].
Qed.

Example os_path_join_after_separator :
  os_path_join "reports17/" "p1" = "reports17/p1".
Proof. reflexivity. Qed.

Example os_path_join_absolute_part :
  os_path_join "coverage_reports" "/tmp/x" = "/tmp/x".
Proof. reflexivity. Qed.

Example os_path_join_plain :
  os_path_join "coverage_reports" "demo" = "coverage_reports/demo".
Proof. reflexivity. Qed.

(** The report publisher never raises.  It calls [rmtree] on the report
    directory at most once, and only before its one call of [copytree]; it
    returns the landing page only when the copy succeeded, and the empty
    string otherwise. *)
Lemma save_html_report_spec self w html_temp_dir pid st :
  exists path st' evs,
    _save_html_report self w html_temp_dir pid st = (Ret path, st')
    /\ trace st' = trace st ++ evs
    /\ (evs = [EvCopyTree html_temp_dir (os_path_join (output_dir self) pid)]
        \/ evs = [EvRmtree (os_path_join (output_dir self) pid);
                  EvCopyTree html_temp_dir
                    (os_path_join (output_dir self) pid)]
        \/ evs = [EvRmtree (os_path_join (output_dir self) pid)])
    /\ (path = ""
        \/ (path = os_path_join (os_path_join (output_dir self) pid)
                     "index.html"
            /\ w_copy_ok w = true
            /\ In (EvCopyTree html_temp_dir
                     (os_path_join (output_dir self) pid)) evs)).
Proof.
  unfold _save_html_report, rmtree_report, copytree, try_except, bind, emit,
    create_path, path_exists, ret, raise, remove_tree.
  cbn [fs trace].
  destruct (bool_decide (os_path_join (output_dir self) pid ∈ fs st));
    [destruct (w_report_rmtree_ok w)|];
    cbn [fs trace];
    try (destruct (w_copy_ok w); cbn [fs trace andb];
         repeat match goal with
           | |- context [bool_decide ?P] =>
               destruct (bool_decide P); cbn [fs trace andb]
           end;
         try (destruct (w_copy_partial w); cbn [fs trace andb]));
    eexists _, _, _; (split; [reflexivity|]); cbn [trace];
    (split; [rewrite <- ?app_assoc; reflexivity|]);
    (split; [first [ left; reflexivity
                   | right; left; reflexivity
                   | right; right; reflexivity ]|]);
    first [ left; reflexivity
          | right; split; [reflexivity|]; split; [reflexivity|];
            cbn [In app]; tauto ].
Qed.

(** A second run under the same identifier removes the report of the
    first one before it copies its own. *)
Example rerun_removes_earlier_report :
  trace (snd (analyze Sample.pipeline
                (Sample.world_with (Completed "2 passed" "" true true) true)
                Sample.source [] "demo"
                {| fs := {["coverage_reports/demo"]} ∪ {[Sample.source]};
                   trace := [] |}))
  = [EvMkdtemp "/tmp/pytest_cov_k3x9";
     EvWriteFile "/tmp/pytest_cov_k3x9/test_coverage.py"
       (harness_text "/home/u" "solution" "solution" []);
     EvRunPytest
       (pytest_cmd "/tmp/pytest_cov_k3x9/test_coverage.py" "solution"
          "/tmp/pytest_cov_k3x9/coverage.json" "/tmp/pytest_cov_k3x9/htmlcov")
       "/tmp/pytest_cov_k3x9";
     EvRmtree "coverage_reports/demo";
     EvCopyTree "/tmp/pytest_cov_k3x9/htmlcov" "coverage_reports/demo";
     EvRmtree "/tmp/pytest_cov_k3x9"].
Proof. vm_compute. reflexivity. Qed.

(** An output directory written with its separator gets no second one. *)
Example report_path_after_separator :
  exists r st',
    analyze {| output_dir := "reports17/" |}
      (Sample.world_with (Completed "2 passed" "" true true) true)
      Sample.source Sample.tests "p1" Sample.with_source = (Ret r, st')
    /\ html_report_path r = "reports17/p1/index.html".
Proof. eexists _, _. split; [vm_compute; reflexivity | reflexivity]. Qed.

Ltac split_flags :=
  repeat match goal with
    | |- context [bool_decide ?P] =>
        destruct (bool_decide P); cbn [fs trace negb fst snd]
    end.

Ltac use_publisher :=
  match goal with
  | |- context [_save_html_report ?a ?b ?c ?d ?s] =>
      let path := fresh "path" in
      let st3 := fresh "st3" in
      let evs := fresh "evs" in
      let Heq := fresh "Heq" in
      let Htr := fresh "Htr" in
      let Hevs := fresh "Hevs" in
      let Hpath := fresh "Hpath" in
      destruct (save_html_report_spec a b c d s)
        as (path & st3 & evs & Heq & Htr & Hevs & Hpath);
      rewrite Heq; cbn [fs trace negb fst snd] in *
  end.

(** Every call returns a record, and the exit taken fixes it: the three
    early exits return [aborted_result] with their own message, the normal
    exit returns what the parser and the interpreter computed. *)
Lemma analyze_exits self w st python_file test_cases pid :
  exists r st',
    analyze self w python_file test_cases pid st = (Ret r, st')
    /\ match exit_path_of w st python_file with
       | SourceNotFound =>
           r = aborted_result pid test_cases "Error: Python file not found"
                 ["File not found: " +:+ python_file]
       | ExecutionTimeout =>
           r = aborted_result pid test_cases
                 "Timeout - execution exceeded 30 seconds" ["Timeout"]
       | UnexpectedFailure =>
           exists message,
             r = aborted_result pid test_cases ("Error: " +:+ message) [message]
       | NormalExit =>
           exists stdout stderr wrote_json wrote_html,
             w_pytest w = Completed stdout stderr wrote_json wrote_html
             /\ total_tests r = Z.of_nat (length test_cases)
             /\ (tests_passed r, tests_failed r)
                = _parse_test_results (stdout +:+ stderr)
                    (Z.of_nat (length test_cases))
             /\ interpretation r
                = _generate_interpretation (tests_passed r) (tests_failed r)
                    (line_coverage r) (branch_coverage r)
             /\ error_details r = w_extract_errors w (stdout +:+ stderr)
       end.
Proof.
  unfold exit_path_of. run_monad.
  destruct (bool_decide (python_file ∈ {[w_tmpdir w]} ∪ fs st)); cbn [negb].
  - destruct (w_write_harness w) as [message|].
    + destruct (w_harness_opened w), (w_rmtree_ok w); cbn [fs trace];
        eexists _, _; (split; [reflexivity|]); exists message; reflexivity.
    + destruct (w_pytest w) as [stdout stderr wrote_json wrote_html|captured|message].
      * destruct wrote_json, wrote_html,
          (w_coverage_summary w) as [[[[? ?] ?] ?] ?];
          cbn [fs trace negb fst snd]; split_flags; try use_publisher;
          destruct (w_rmtree_ok w); cbn [fs trace];
          eexists _, _; (split; [reflexivity|]);
          eexists _, _, _, _; (split; [reflexivity|]);
          cbn [total_tests tests_passed tests_failed interpretation
                 error_details line_coverage branch_coverage];
          repeat split; now destruct (_parse_test_results _ _).
      * destruct (w_rmtree_ok w); eexists _, _; (split; reflexivity).
      * destruct (w_rmtree_ok w); eexists _, _; (split; [reflexivity|]);
          exists message; reflexivity.
  - destruct (w_rmtree_ok w); eexists _, _; (split; reflexivity).
Qed.

Lemma under_refl dir : under dir dir = true.
Proof. unfold under. now rewrite String.eqb_refl. Qed.

Lemma not_under_after_filter dir (X : gset string) p :
  p ∈ filter (fun p => under dir p = false) X -> under dir p = false.
Proof. intros H. now apply elem_of_filter in H as [H _]. Qed.

(** The effects of every call, in order, and what is left of the
    workspace.  The call creates the workspace first and attempts its
    removal last.  In between it does nothing; or leaves a harness file that
    could not be written in full; or writes the harness and launches the
    tool once, after which the publisher may remove an earlier report and
    call the copy.  When the final removal succeeds nothing of the workspace
    exists afterwards.  A report path is returned only on the normal exit
    after a successful copy. *)
Lemma analyze_normal_form self w st python_file test_cases pid :
  exists r st' new,
    analyze self w python_file test_cases pid st = (Ret r, st')
    /\ trace st' = trace st ++ new
    /\ (new = [EvMkdtemp (w_tmpdir w); EvRmtree (w_tmpdir w)]
        \/ new = [EvMkdtemp (w_tmpdir w);
                  EvCreateFile (path_join (w_tmpdir w) "test_coverage.py");
                  EvRmtree (w_tmpdir w)]
        \/ exists evs,
             (evs = []
              \/ evs = [EvCopyTree (path_join (w_tmpdir w) "htmlcov")
                          (os_path_join (output_dir self) pid)]
              \/ evs = [EvRmtree (os_path_join (output_dir self) pid);
                        EvCopyTree (path_join (w_tmpdir w) "htmlcov")
                          (os_path_join (output_dir self) pid)]
              \/ evs = [EvRmtree (os_path_join (output_dir self) pid)])
             /\ new
                = [EvMkdtemp (w_tmpdir w);
                   EvWriteFile (path_join (w_tmpdir w) "test_coverage.py")
                     (harness_text (w_parent_absolute w python_file)
                        (w_stem w python_file)
                        (_extract_function_name
                           (w_parse_source w python_file))
                        test_cases);
                   EvRunPytest
                     (pytest_cmd (path_join (w_tmpdir w) "test_coverage.py")
                        (w_stem w python_file)
                        (path_join (w_tmpdir w) "coverage.json")
                        (path_join (w_tmpdir w) "htmlcov"))
                     (w_tmpdir w)]
                  ++ evs ++ [EvRmtree (w_tmpdir w)]
             /\ (html_report_path r = ""
                 \/ (html_report_path r
                     = os_path_join (os_path_join (output_dir self) pid)
                         "index.html"
                     /\ exit_path_of w st python_file = NormalExit
                     /\ w_copy_ok w = true
                     /\ In (EvCopyTree (path_join (w_tmpdir w) "htmlcov")
                              (os_path_join (output_dir self) pid)) evs)))
    /\ (new = [EvMkdtemp (w_tmpdir w); EvRmtree (w_tmpdir w)]
        \/ new = [EvMkdtemp (w_tmpdir w);
                  EvCreateFile (path_join (w_tmpdir w) "test_coverage.py");
                  EvRmtree (w_tmpdir w)] ->
        html_report_path r = "")
    /\ (w_rmtree_ok w = true ->
        forall p, p ∈ fs st' -> under (w_tmpdir w) p = false).
Proof.
  unfold exit_path_of. run_monad.
  destruct (bool_decide (python_file ∈ {[w_tmpdir w]} ∪ fs st)); cbn [negb].
  - destruct (w_write_harness w) as [message|].
    + destruct (w_harness_opened w), (w_rmtree_ok w) eqn:Hok; cbn [fs trace];
        eexists _, _, _; (split; [reflexivity|]); cbn [fs trace];
        (split; [rewrite <- ?app_assoc; reflexivity|]);
        (split; [first [left; reflexivity | right; left; reflexivity]|]);
        (split; [reflexivity|]);
        try discriminate; intros _ p; apply not_under_after_filter.
    + destruct (w_pytest w) as [stdout stderr wrote_json wrote_html|captured|message].
      * destruct wrote_json, wrote_html,
          (w_coverage_summary w) as [[[[? ?] ?] ?] ?];
          cbn [fs trace negb fst snd]; split_flags;
          first
            [ use_publisher;
              destruct (w_rmtree_ok w) eqn:Hok; cbn [fs trace];
              eexists _, _, _; (split; [reflexivity|]); cbn [fs trace];
              rewrite Htr; cbn [trace];
              (split; [rewrite <- ?app_assoc; reflexivity|]);
              (split;
               [right; right; exists evs;
                split; [tauto|];
                split; [reflexivity|]; cbn [html_report_path];
                destruct Hpath as [-> | (-> & Hc & Hin)];
                [left; reflexivity
                |right; repeat (split; [reflexivity || assumption|]);
                 assumption]|]);
              (split;
               [intros [H | H]; apply (f_equal (@length event)) in H;
                rewrite ?length_app in H; cbn [length] in H; lia|]);
              try discriminate; intros _ p; apply not_under_after_filter
            | destruct (w_rmtree_ok w) eqn:Hok; cbn [fs trace];
              eexists _, _, _; (split; [reflexivity|]); cbn [fs trace];
              (split; [rewrite <- ?app_assoc; reflexivity|]);
              (split;
               [right; right; exists [];
                split; [tauto|]; split; [reflexivity|]; left; reflexivity|]);
              (split; [reflexivity|]);
              try discriminate; intros _ p; apply not_under_after_filter ].
      * destruct (w_rmtree_ok w) eqn:Hok; cbn [fs trace];
          eexists _, _, _; (split; [reflexivity|]); cbn [fs trace];
          (split; [rewrite <- ?app_assoc; reflexivity|]);
          (split;
           [right; right; exists [];
            split; [tauto|]; split; [reflexivity|]; left; reflexivity|]);
          (split; [reflexivity|]);
          try discriminate; intros _ p; apply not_under_after_filter.
      * destruct (w_rmtree_ok w) eqn:Hok; cbn [fs trace];
          eexists _, _, _; (split; [reflexivity|]); cbn [fs trace];
          (split; [rewrite <- ?app_assoc; reflexivity|]);
          (split;
           [right; right; exists [];
            split; [tauto|]; split; [reflexivity|]; left; reflexivity|]);
          (split; [reflexivity|]);
          try discriminate; intros _ p; apply not_under_after_filter.
  - destruct (w_rmtree_ok w) eqn:Hok; cbn [fs trace];
      eexists _, _, _; (split; [reflexivity|]); cbn [fs trace];
      (split; [rewrite <- ?app_assoc; reflexivity|]);
      (split; [left; reflexivity|]);
      (split; [reflexivity|]);
      try discriminate; intros _ p; apply not_under_after_filter.
Qed.

Lemma length_append (a b : string) :
  String.length (a +:+ b) = String.length a + String.length b.
Proof. induction a as [|c a IH]; simpl; [reflexivity | now rewrite IH]. Qed.

(** The timeout message is no message of the interpreter. *)
Lemma timeout_is_no_interpretation passed failed line_cov branch_cov :
  _generate_interpretation passed failed line_cov branch_cov
  <> "Timeout - execution exceeded 30 seconds".
Proof.
  unfold _generate_interpretation.
  destruct (0 <? failed)%Z.
  - intros H. apply (f_equal String.length) in H.
    rewrite length_append in H. simpl in H. lia.
  - destruct (line_cov <? 50)%float; [discriminate|].
    destruct (line_cov <? 80)%float; [discriminate|].
    destruct branch_cov as [b|]; simpl.
    + destruct (b <? 50)%float; [discriminate|].
      destruct (b <? 80)%float; [discriminate|].
      destruct (90 <=? line_cov)%float; [|discriminate].
      destruct (negb (b =? 0)%float); simpl; [|discriminate].
      destruct (90 <=? b)%float; discriminate.
    + destruct (90 <=? line_cov)%float; discriminate.
Qed.

Lemma missing_after_mkdtemp (tmp python_file : string) (X : gset string) :
  python_file ∉ X -> python_file <> tmp -> python_file ∉ {[tmp]} ∪ X.
Proof. rewrite elem_of_union, elem_of_singleton. tauto. Qed.

Lemma present_after_mkdtemp (tmp python_file : string) (X : gset string) :
  python_file ∈ X -> python_file ∈ {[tmp]} ∪ X.
Proof. rewrite elem_of_union. tauto. Qed.

Lemma exit_when_source_missing w st python_file :
  python_file ∉ fs st -> python_file <> w_tmpdir w ->
  exit_path_of w st python_file = SourceNotFound.
Proof.
  intros Hmiss Hne. unfold exit_path_of.
  rewrite bool_decide_eq_false_2; [reflexivity|].
  now apply missing_after_mkdtemp.
Qed.

Lemma exit_when_timed_out w st python_file captured :
  python_file ∈ fs st -> w_write_harness w = None ->
  w_pytest w = TimedOut captured ->
  exit_path_of w st python_file = ExecutionTimeout.
Proof.
  intros Hin Hw Hp. unfold exit_path_of.
  rewrite bool_decide_eq_true_2 by now apply present_after_mkdtemp.
  now rewrite Hw, Hp.
Qed.

(** C2. When the source path does not exist, [analyze] returns a record
    with [total_tests = len(test_cases)], [tests_failed = total_tests],
    [tests_passed = 0] and the non-empty message
    "Error: Python file not found"; the only external effects of the call
    are the creation and the removal of the workspace: no harness is
    written and no child process is run. *)
Theorem missing_source_short_circuits
    self w st python_file test_cases pid :
  python_file ∉ fs st ->
  python_file <> w_tmpdir w ->
  exists r st',
    analyze self w python_file test_cases pid st = (Ret r, st')
    /\ total_tests r = Z.of_nat (length test_cases)
    /\ tests_failed r = total_tests r
    /\ tests_passed r = 0%Z
    /\ interpretation r = "Error: Python file not found"
    /\ interpretation r <> ""
    /\ trace st' = trace st ++ [EvMkdtemp (w_tmpdir w); EvRmtree (w_tmpdir w)].
Proof.
  intros Hmiss Hne. run_monad.
  rewrite bool_decide_eq_false_2 by now apply missing_after_mkdtemp.
  cbn [negb].
  destruct (w_rmtree_ok w); cbn [fs trace]; eexists _, _;
    (split; [reflexivity|]); cbn [trace];
    (repeat split; [discriminate | now rewrite <- app_assoc]).
Qed.

Lemma missing_source_short_circuits_witness :
  exists r st',
    analyze Sample.pipeline
      (Sample.world_with (Completed "2 passed" "" true true) true)
      Sample.source Sample.tests "demo" Sample.empty_disk = (Ret r, st')
    /\ tests_failed r = 2%Z
    /\ trace st' = [EvMkdtemp "/tmp/pytest_cov_k3x9";
                    EvRmtree "/tmp/pytest_cov_k3x9"].
Proof.
  destruct (missing_source_short_circuits Sample.pipeline
              (Sample.world_with (Completed "2 passed" "" true true) true)
              Sample.empty_disk Sample.source Sample.tests "demo")
    as (r & st' & Hrun & Htotal & Hfailed & _ & _ & _ & Htrace).
  - apply not_elem_of_empty.
  - discriminate.
  - exists r, st'. split; [exact Hrun|]. split; [|exact Htrace].
    rewrite Hfailed, Htotal. reflexivity.
Defined.

(** C3, as stated, fails: after a timeout the failed counter is not zero
    but the number of test cases. *)
Lemma timeout_counts_every_test_as_failed :
  exists r st',
    analyze Sample.pipeline
      (Sample.world_with (TimedOut "collected 2 items") true)
      Sample.source Sample.tests "demo" Sample.with_source = (Ret r, st')
    /\ tests_failed r = 2%Z
    /\ tests_failed r <> 0%Z.
Proof.
  eexists _, _. split; [vm_compute; reflexivity|].
  split; [reflexivity | discriminate].
Qed.

(** C3, amended. When the external run exceeds the 30 second bound,
    [analyze] returns a fully populated record in which [tests_passed] and
    every coverage field are zero (branch coverage absent),
    [tests_failed = total_tests = len(test_cases)], and the interpretation
    is "Timeout - execution exceeded 30 seconds", a string that neither the
    interpreter nor the other early exits produce.  The record does not
    depend on what the run had printed: nothing of it is parsed. *)
Theorem timeout_result
    self w st python_file test_cases pid captured :
  python_file ∈ fs st ->
  w_write_harness w = None ->
  w_pytest w = TimedOut captured ->
  exists st',
    analyze self w python_file test_cases pid st
    = (Ret {| problem_id := pid;
              tests_passed := 0;
              tests_failed := Z.of_nat (length test_cases);
              total_tests := Z.of_nat (length test_cases);
              line_coverage := 0;
              statement_coverage := 0;
              branch_coverage := None;
              statements_covered := 0;
              statements_total := 0;
              interpretation := "Timeout - execution exceeded 30 seconds";
              error_details := ["Timeout"];
              html_report_path := "" |}, st')
    /\ "Timeout - execution exceeded 30 seconds" <> "Error: Python file not found"
    /\ (forall message,
          "Error: " +:+ message <> "Timeout - execution exceeded 30 seconds")
    /\ (forall passed failed line_cov branch_cov,
          _generate_interpretation passed failed line_cov branch_cov
          <> "Timeout - execution exceeded 30 seconds").
Proof.
  intros Hin Hw Hp.
  destruct (analyze_exits self w st python_file test_cases pid)
    as (r & st' & Hrun & Hexit).
  rewrite (exit_when_timed_out _ _ _ captured Hin Hw Hp) in Hexit. subst r.
  exists st'. split; [exact Hrun|].
  split; [discriminate|]. split; [discriminate|].
  apply timeout_is_no_interpretation.
Qed.

Lemma timeout_result_witness :
  exists r st',
    analyze Sample.pipeline
      (Sample.world_with (TimedOut "collected 2 items") true)
      Sample.source Sample.tests "demo" Sample.with_source = (Ret r, st')
    /\ tests_passed r = 0%Z /\ tests_failed r = total_tests r
    /\ interpretation r = "Timeout - execution exceeded 30 seconds".
Proof.
  destruct (timeout_result Sample.pipeline
              (Sample.world_with (TimedOut "collected 2 items") true)
              Sample.with_source Sample.source Sample.tests "demo"
              "collected 2 items")
    as (st' & Hrun & _).
  - change (Sample.source ∈ ({[Sample.source]} : gset string)).
    now apply elem_of_singleton_2.
  - reflexivity.
  - reflexivity.
  - eexists _, st'. split; [exact Hrun|]. repeat split.
Defined.

(** C1, as stated, fails: a run that completes with one test passed and
    one skipped returns counts that do not add up to [total_tests]. *)
Lemma completed_run_counts_need_not_add_up :
  exists r st',
    analyze Sample.pipeline
      (Sample.world_with
         (Completed "======== 1 passed, 1 skipped in 0.02s ========" ""
            true true) true)
      Sample.source
      ["assert candidate(1) == 1"; "__import__('pytest').skip()"]
      "demo" Sample.with_source = (Ret r, st')
    /\ total_tests r = 2%Z
    /\ (tests_passed r + tests_failed r)%Z = 1%Z
    /\ (tests_passed r + tests_failed r)%Z <> total_tests r.
Proof.
  eexists _, _. split; [vm_compute; reflexivity|].
  split; [reflexivity|]. split; [reflexivity | discriminate].
Qed.

(** Both counters are zero on the normal exit too, when there is no test. *)
Example completed_run_without_tests :
  exists r st',
    analyze Sample.pipeline
      (Sample.world_with (Completed "no tests ran in 0.01s" "" true true) true)
      Sample.source [] "demo" Sample.with_source = (Ret r, st')
    /\ tests_passed r = 0%Z /\ tests_failed r = 0%Z.
Proof. eexists _, _. split; [vm_compute; reflexivity|]. now split. Qed.

Lemma fallback_counts_add_up output total :
  count_or_zero (re_search " passed" output) = 0%Z ->
  count_or_zero (re_search " failed" output) = 0%Z ->
  (fst (_parse_test_results output total)
   + snd (_parse_test_results output total))%Z = total.
Proof.
  intros Hp Hf. unfold _parse_test_results. rewrite Hp, Hf. simpl.
  destruct (PyStr.contains "passed" (PyStr.lower output)); simpl; lia.
Qed.

Lemma reported_counts_returned output total :
  (count_or_zero (re_search " passed" output) <> 0%Z
   \/ count_or_zero (re_search " failed" output) <> 0%Z) ->
  _parse_test_results output total
  = (count_or_zero (re_search " passed" output),
     count_or_zero (re_search " failed" output)).
Proof.
  intros H. unfold _parse_test_results.
  destruct (Z.eqb_spec (count_or_zero (re_search " passed" output)) 0);
    destruct (Z.eqb_spec (count_or_zero (re_search " failed" output)) 0);
    simpl; try reflexivity.
  destruct H; contradiction.
Qed.

(** C1, amended. Every call returns a record with
    [total_tests = len(test_cases)].  When execution ran to completion,
    [tests_passed] and [tests_failed] are the two counts the parser extracts
    from the combined output: they add up to [total_tests] when neither
    count pattern reports a non-zero number (the fallback gives the whole
    total to one side), and otherwise they are the two reported numbers,
    whatever their sum.  In the SourceNotFound, Timeout and
    UnexpectedFailure branches [tests_passed = 0] and
    [tests_failed = total_tests]. *)
Theorem counts_by_exit self w st python_file test_cases pid :
  exists r st',
    analyze self w python_file test_cases pid st = (Ret r, st')
    /\ total_tests r = Z.of_nat (length test_cases)
    /\ match exit_path_of w st python_file with
       | NormalExit =>
           exists stdout stderr wrote_json wrote_html,
             w_pytest w = Completed stdout stderr wrote_json wrote_html
             /\ (tests_passed r, tests_failed r)
                = _parse_test_results (stdout +:+ stderr)
                    (Z.of_nat (length test_cases))
             /\ (count_or_zero (re_search " passed" (stdout +:+ stderr)) = 0%Z ->
                 count_or_zero (re_search " failed" (stdout +:+ stderr)) = 0%Z ->
                 (tests_passed r + tests_failed r)%Z = total_tests r)
             /\ (count_or_zero (re_search " passed" (stdout +:+ stderr)) <> 0%Z
                 \/ count_or_zero (re_search " failed" (stdout +:+ stderr)) <> 0%Z ->
                 tests_passed r
                 = count_or_zero (re_search " passed" (stdout +:+ stderr))
                 /\ tests_failed r
                    = count_or_zero (re_search " failed" (stdout +:+ stderr)))
       | SourceNotFound | ExecutionTimeout | UnexpectedFailure =>
           tests_passed r = 0%Z /\ tests_failed r = total_tests r
       end.
Proof.
  destruct (analyze_exits self w st python_file test_cases pid)
    as (r & st' & Hrun & Hexit).
  exists r, st'. split; [exact Hrun|].
  destruct (exit_path_of w st python_file).
  - destruct Hexit as (stdout & stderr & wj & wh & Hp & Htotal & Hcounts & _).
    split; [exact Htotal|].
    exists stdout, stderr, wj, wh. split; [exact Hp|]. split; [exact Hcounts|].
    split.
    + intros Hzp Hzf. rewrite Htotal.
      rewrite <- (fallback_counts_add_up (stdout +:+ stderr)
                    (Z.of_nat (length test_cases)) Hzp Hzf).
      now rewrite <- Hcounts.
    + intros Hnz.
      rewrite (reported_counts_returned _ _ Hnz) in Hcounts.
      now injection Hcounts.
  - subst r. repeat split.
  - subst r. repeat split.
  - destruct Hexit as [message ->]. repeat split.
Qed.

Lemma counts_by_exit_witness :
  exists r st',
    analyze Sample.pipeline
      (Sample.world_with
         (Completed "test_coverage.py::test_case_0 PASSED" "" true true) true)
      Sample.source Sample.tests "demo" Sample.with_source = (Ret r, st')
    /\ (tests_passed r + tests_failed r)%Z = total_tests r.
Proof.
  destruct (counts_by_exit Sample.pipeline
              (Sample.world_with
                 (Completed "test_coverage.py::test_case_0 PASSED" ""
                    true true) true)
              Sample.with_source Sample.source Sample.tests "demo")
    as (r & st' & Hrun & _ & Hexit).
  change (exit_path_of _ _ _) with NormalExit in Hexit.
  destruct Hexit as (stdout & stderr & wj & wh & Hp & _ & Hsum & _).
  exists r, st'. split; [exact Hrun|].
  injection Hp as <- <- _ _. apply Hsum; reflexivity.
Defined.

(** C9, as stated, fails: the removal is attempted inside a [try] whose
    [except] swallows every error, so when [shutil.rmtree] fails the call
    still returns its record and the workspace is still on disk. *)
Lemma workspace_survives_failed_removal :
  exists r,
    fst (analyze Sample.pipeline
           (Sample.world_with (Completed "2 passed in 0.03s" "" true true) false)
           Sample.source Sample.tests "demo" Sample.with_source) = Ret r
    /\ "/tmp/pytest_cov_k3x9"
       ∈ fs (snd (analyze Sample.pipeline
                    (Sample.world_with
                       (Completed "2 passed in 0.03s" "" true true) false)
                    Sample.source Sample.tests "demo" Sample.with_source)).
Proof.
  eexists. split; [vm_compute; reflexivity|].
  apply (proj1 (bool_decide_eq_true _)). vm_compute. reflexivity.
Qed.

(** C9, amended. On every exit path (normal, missing file, timeout,
    exception) the call returns its record after attempting the removal of
    the workspace, as the last effect of the call; the only other removal a
    call makes is the publisher's removal of a report directory
    [<output_dir>/<problem_id>] that was already there.  Whenever the final
    removal succeeds, the workspace directory and everything below it no
    longer exist.  A removal that fails is ignored. *)
Theorem workspace_removed_when_rmtree_succeeds
    self w st python_file test_cases pid :
  exists r st' new,
    analyze self w python_file test_cases pid st = (Ret r, st')
    /\ trace st' = trace st ++ new
    /\ last new = Some (EvRmtree (w_tmpdir w))
    /\ (List.filter is_rmtree new = [EvRmtree (w_tmpdir w)]
        \/ List.filter is_rmtree new
           = [EvRmtree (os_path_join (output_dir self) pid);
              EvRmtree (w_tmpdir w)])
    /\ (w_rmtree_ok w = true ->
        (w_tmpdir w ∉ fs st')
        /\ (forall p, p ∈ fs st' -> under (w_tmpdir w) p = false)).
Proof.
  destruct (analyze_normal_form self w st python_file test_cases pid)
    as (r & st' & new & Hrun & Htrace & Hnew & _ & Hgone).
  exists r, st', new. split; [exact Hrun|]. split; [exact Htrace|].
  assert (last new = Some (EvRmtree (w_tmpdir w))
          /\ (List.filter is_rmtree new = [EvRmtree (w_tmpdir w)]
              \/ List.filter is_rmtree new
                 = [EvRmtree (os_path_join (output_dir self) pid);
                    EvRmtree (w_tmpdir w)])) as [Hlast Hrm].
  { destruct Hnew as [-> | [-> | (evs & Hevs & -> & _)]].
    - split; [reflexivity | left; reflexivity].
    - split; [reflexivity | left; reflexivity].
    - destruct Hevs as [-> | [-> | [-> | ->]]];
        (split; [reflexivity|]);
        first [left; reflexivity | right; reflexivity]. }
  split; [exact Hlast|]. split; [exact Hrm|].
  intros Hok. split; [|now apply Hgone].
  intros Hin. apply (Hgone Hok) in Hin. rewrite under_refl in Hin. discriminate.
Qed.

Lemma workspace_removed_when_rmtree_succeeds_witness :
  exists r st',
    analyze Sample.pipeline
      (Sample.world_with (TimedOut "collected 2 items") true)
      Sample.source Sample.tests "demo" Sample.with_source = (Ret r, st')
    /\ "/tmp/pytest_cov_k3x9" ∉ fs st'.
Proof.
  destruct (workspace_removed_when_rmtree_succeeds Sample.pipeline
              (Sample.world_with (TimedOut "collected 2 items") true)
              Sample.with_source Sample.source Sample.tests "demo")
    as (r & st' & new & Hrun & _ & _ & _ & Hgone).
  exists r, st'. split; [exact Hrun|]. exact (proj1 (Hgone eq_refl)).
Defined.

(** * Further properties *)

(** ** Decimal numerals: [str] and [int] *)

Lemma int_digits_from_uint_acc d : forall acc,
  PyStr.int_digits_from (Z.pos acc) (NilEmpty.string_of_uint d)
  = Z.pos (Pos.of_uint_acc d acc).
Proof.
  induction d; intros acc; cbn [NilEmpty.string_of_uint PyStr.int_digits_from
                                  Pos.of_uint_acc]; try reflexivity;
    rewrite <- IHd; f_equal;
    match goal with
    | |- context [PyStr.digit_val ?c] =>
        let v := eval vm_compute in (PyStr.digit_val c) in
        change (PyStr.digit_val c) with v
    end; lia.
Qed.

Lemma int_digits_from_uint d :
  PyStr.int_digits_from 0 (NilEmpty.string_of_uint d) = Z.of_N (Pos.of_uint d).
Proof.
  induction d; simpl; try reflexivity; try exact IHd;
    rewrite <- int_digits_from_uint_acc; reflexivity.
Qed.

Lemma all_digits_uint d : PyStr.all_digits (NilEmpty.string_of_uint d) = true.
Proof. induction d; simpl; try reflexivity; exact IHd. Qed.

Lemma str_int_pos p :
  PyStr.str_int (Z.pos p) = NilEmpty.string_of_uint (Pos.to_uint p).
Proof.
  unfold PyStr.str_int. simpl.
  pose proof (Unsigned.to_uint_nonnil p) as H.
  now destruct (Pos.to_uint p).
Qed.

(** [int(str(n)) == n] for a natural number [n]. *)
Lemma int_of_str_int n : (0 <= n)%Z -> PyStr.int_of_digits (PyStr.str_int n) = n.
Proof.
  intros Hn. destruct n as [|p|p]; [reflexivity| |lia].
  rewrite str_int_pos. unfold PyStr.int_of_digits.
  now rewrite int_digits_from_uint, DecimalPos.Unsigned.of_to.
Qed.

(** [str(n)] of a natural number is a non-empty run of digits. *)
Lemma str_int_digits n :
  (0 <= n)%Z ->
  PyStr.all_digits (PyStr.str_int n) = true /\ PyStr.str_int n <> "".
Proof.
  intros Hn. destruct n as [|p|p]; [split; [reflexivity|discriminate]| |lia].
  rewrite str_int_pos. split; [apply all_digits_uint|].
  pose proof (Unsigned.to_uint_nonnil p) as H.
  destruct (Pos.to_uint p); try contradiction; discriminate.
Qed.

(** ** Result parser: reading counts back *)

Lemma digit_val_nonneg c : PyStr.isdigit c = true -> (0 <= PyStr.digit_val c)%Z.
Proof.
  unfold PyStr.isdigit, PyStr.digit_val. intros H.
  apply andb_true_iff in H as [H _]. apply Nat.leb_le in H. lia.
Qed.

Lemma int_digits_from_nonneg s : forall acc,
  (0 <= acc)%Z -> PyStr.all_digits s = true ->
  (0 <= PyStr.int_digits_from acc s)%Z.
Proof.
  induction s as [|c s IH]; intros acc Hacc Hs; simpl in *; [exact Hacc|].
  apply andb_true_iff in Hs as [Hc Hs]. apply IH; [|exact Hs].
  pose proof (digit_val_nonneg c Hc). lia.
Qed.

Lemma count_or_zero_nonneg lit output :
  (0 <= count_or_zero (re_search lit output))%Z.
Proof.
  destruct (re_search lit output) as [g|] eqn:E; simpl; [|lia].
  apply re_search_digits in E as [_ Hg].
  now apply int_digits_from_nonneg.
Qed.

Lemma re_search_skip_char lit c s :
  PyStr.isdigit c = false -> re_search lit (String c s) = re_search lit s.
Proof.
  intros Hc. cbn [re_search]. unfold re_match_here at 1. simpl digit_run.
  now rewrite Hc.
Qed.

Lemma re_search_skip_no_digit lit pre s :
  no_digit pre = true -> re_search lit (pre +:+ s) = re_search lit s.
Proof.
  induction pre as [|c pre IH]; [reflexivity|]. intros H.
  simpl in H. apply andb_true_iff in H as [Hc Hpre]. apply negb_true_iff in Hc.
  change (String c pre +:+ s) with (String c (pre +:+ s)).
  rewrite re_search_skip_char by exact Hc. now apply IH.
Qed.

Lemma digit_run_append g rest :
  PyStr.all_digits g = true -> digit_run rest = 0 ->
  digit_run (g +:+ rest) = String.length g.
Proof.
  intros Hg Hrest. induction g as [|c g IH]; simpl in *; [exact Hrest|].
  apply andb_true_iff in Hg as [-> Hg]. now rewrite IH.
Qed.

Lemma take_length_append g rest : PyStr.take (String.length g) (g +:+ rest) = g.
Proof.
  induction g as [|c g IH]; simpl; [now destruct rest | now rewrite IH].
Qed.

Lemma drop_length_append g rest : PyStr.drop (String.length g) (g +:+ rest) = rest.
Proof. induction g as [|c g IH]; simpl; [now destruct rest | exact IH]. Qed.

(** A non-empty digit run followed by the literal is matched whole. *)
Lemma re_match_here_count lit g post :
  PyStr.all_digits g = true -> g <> "" -> digit_run lit = 0 -> lit <> "" ->
  re_match_here lit (g +:+ (lit +:+ post)) = Some g.
Proof.
  intros Hg Hne Hlit Hlne. unfold re_match_here.
  rewrite digit_run_append; [|exact Hg|].
  - destruct g as [|c g]; [contradiction|]. cbn [String.length re_backtrack].
    change (S (String.length g)) with (String.length (String c g)).
    rewrite drop_length_append, take_length_append.
    unfold PyStr.startswith. now rewrite prefix_append.
  - destruct lit as [|c lit]; [contradiction|]. simpl in *.
    now destruct (PyStr.isdigit c).
Qed.

Lemma re_search_count lit g post :
  PyStr.all_digits g = true -> g <> "" -> digit_run lit = 0 -> lit <> "" ->
  re_search lit (g +:+ (lit +:+ post)) = Some g.
Proof.
  intros Hg Hne Hlit Hlne.
  pose proof (re_match_here_count lit g post Hg Hne Hlit Hlne) as H.
  destruct (g +:+ (lit +:+ post)); cbn [re_search]; now rewrite H.
Qed.

(** Inside a digit run that the literal does not follow there is no
    match. *)
Lemma no_literal_inside_run lit g rest :
  PyStr.all_digits g = true -> digit_run lit = 0 -> lit <> "" ->
  PyStr.startswith rest lit = false ->
  forall k, k <= String.length g ->
  PyStr.startswith (PyStr.drop k (g +:+ rest)) lit = false.
Proof.
  intros Hg Hlit Hne Hrest.
  induction g as [|c g IH]; intros k Hk.
  - simpl in Hk. assert (k = 0) as -> by lia. simpl. now destruct rest.
  - simpl in Hg. apply andb_true_iff in Hg as [Hc Hg].
    destruct k as [|k]; [|simpl in *; apply IH; [exact Hg | lia]].
    simpl. unfold PyStr.startswith. destruct lit as [|l lit]; [contradiction|].
    simpl. destruct (ascii_dec l c) as [->|]; [|reflexivity].
    simpl in Hlit. rewrite Hc in Hlit. discriminate.
Qed.

Lemma re_backtrack_none lit g rest k :
  PyStr.all_digits g = true -> digit_run lit = 0 -> lit <> "" ->
  PyStr.startswith rest lit = false ->
  k <= String.length g ->
  re_backtrack lit k (g +:+ rest) = None.
Proof.
  intros Hg Hlit Hne Hrest. induction k as [|k IH]; intros Hk;
    cbn [re_backtrack]; [reflexivity|].
  rewrite no_literal_inside_run by assumption. apply IH. lia.
Qed.

Lemma re_search_skip_run lit g rest :
  PyStr.all_digits g = true -> digit_run lit = 0 -> lit <> "" ->
  digit_run rest = 0 ->
  PyStr.startswith rest lit = false ->
  re_search lit (g +:+ rest) = re_search lit rest.
Proof.
  intros Hg Hlit Hne Hrun Hrest. induction g as [|c g IH]; [reflexivity|].
  pose proof Hg as Hg'. simpl in Hg'. apply andb_true_iff in Hg' as [_ Hg'].
  change (String c g +:+ rest) with (String c (g +:+ rest)).
  cbn [re_search]. unfold re_match_here at 1.
  change (String c (g +:+ rest)) with (String c g +:+ rest).
  rewrite re_backtrack_none; try assumption; [now apply IH|].
  now rewrite digit_run_append.
Qed.

(** A literal without digits cannot end inside a text that a digit
    follows. *)
Lemma prefix_no_straddle lit : forall y c s,
  no_digit lit = true -> PyStr.isdigit c = true ->
  String.prefix lit y = false ->
  String.prefix lit (y +:+ String c s) = false.
Proof.
  induction lit as [|a lit IH]; intros y c s Hlit Hc Hy.
  - now destruct y.
  - simpl in Hlit. apply andb_true_iff in Hlit as [Ha Hlit].
    apply negb_true_iff in Ha.
    destruct y as [|b y]; simpl.
    + destruct (ascii_dec a c) as [->|]; [congruence | reflexivity].
    + simpl in Hy. destruct (ascii_dec a b); [now apply IH | reflexivity].
Qed.

Lemma drop_append k : forall x s,
  k <= String.length x -> PyStr.drop k (x +:+ s) = PyStr.drop k x +:+ s.
Proof.
  induction k as [|k IH]; intros x s Hk.
  - now destruct x, s.
  - destruct x as [|c x]; simpl in *; [lia|]. apply IH. lia.
Qed.

Lemma digit_run_le_length s : digit_run s <= String.length s.
Proof.
  induction s as [|c s IH]; simpl; [lia|]. destruct (PyStr.isdigit c); lia.
Qed.

Lemma digit_run_before_digit x c s :
  x <> "" -> last_is_digit x = false ->
  digit_run (x +:+ String c s) = digit_run x.
Proof.
  induction x as [|a x IH]; [contradiction|]. intros _ Hlast.
  change (String a x +:+ String c s) with (String a (x +:+ String c s)).
  cbn [digit_run]. destruct (PyStr.isdigit a) eqn:Ha; [|reflexivity].
  destruct x as [|b x]; [simpl in Hlast; congruence|].
  f_equal. apply IH; [discriminate | exact Hlast].
Qed.

Lemma re_backtrack_extend lit x c s : forall k,
  no_digit lit = true -> PyStr.isdigit c = true ->
  k <= String.length x ->
  re_backtrack lit k x = None ->
  re_backtrack lit k (x +:+ String c s) = None.
Proof.
  intros k Hlit Hc. induction k as [|k IH]; intros Hk; cbn [re_backtrack];
    [reflexivity|].
  unfold PyStr.startswith.
  destruct (String.prefix lit (PyStr.drop (S k) x)) eqn:E; [discriminate|].
  intros Hrest. rewrite drop_append by exact Hk.
  rewrite prefix_no_straddle by assumption. apply IH; [lia | exact Hrest].
Qed.

Lemma re_search_none_here lit s :
  re_search lit s = None -> re_match_here lit s = None.
Proof.
  destruct s; cbn [re_search]; now destruct (re_match_here lit _).
Qed.

(** Text in which the pattern does not occur, and which does not end with
    a digit, can be skipped when a digit follows. *)
Lemma re_search_skip_prefix lit pre c s :
  no_digit lit = true -> PyStr.isdigit c = true ->
  re_search lit pre = None -> last_is_digit pre = false ->
  re_search lit (pre +:+ String c s) = re_search lit (String c s).
Proof.
  intros Hlit Hc. induction pre as [|a pre IH]; [reflexivity|].
  intros Hnone Hlast.
  pose proof (re_search_none_here _ _ Hnone) as Hhere.
  assert (re_search lit pre = None) as Hnone'.
  { cbn [re_search] in Hnone. now rewrite Hhere in Hnone. }
  assert (last_is_digit pre = false) as Hlast'.
  { destruct pre; [reflexivity | exact Hlast]. }
  change (String a pre +:+ String c s) with (String a (pre +:+ String c s)).
  cbn [re_search].
  change (String a (pre +:+ String c s)) with (String a pre +:+ String c s).
  unfold re_match_here at 1.
  rewrite digit_run_before_digit by (discriminate || exact Hlast).
  rewrite re_backtrack_extend; try assumption; [now apply IH|].
  apply digit_run_le_length.
Qed.

Lemma str_int_head n :
  (0 <= n)%Z ->
  exists c s, PyStr.str_int n = String c s /\ PyStr.isdigit c = true.
Proof.
  intros Hn. destruct (str_int_digits n Hn) as [Hd Hne].
  destruct (PyStr.str_int n) as [|c s]; [contradiction|].
  exists c, s. split; [reflexivity|].
  simpl in Hd. now apply andb_true_iff in Hd as [Hd _].
Qed.

(** The counts of a summary "F failed, P passed" that comes after text
    without an earlier match. *)
Lemma summary_counts (pre post : string) (p f total_tests : Z) :
  re_search " passed" pre = None ->
  re_search " failed" pre = None ->
  last_is_digit pre = false ->
  (0 < p)%Z -> (0 < f)%Z ->
  _parse_test_results
    (pre +:+ PyStr.str_int f +:+ " failed, " +:+ PyStr.str_int p
       +:+ " passed" +:+ post) total_tests
  = (p, f).
Proof.
  intros Hpp Hpf Hlast Hp Hf.
  destruct (str_int_digits p ltac:(lia)) as [Hdp Hnp].
  destruct (str_int_digits f ltac:(lia)) as [Hdf Hnf].
  destruct (str_int_head f ltac:(lia)) as (c & s & Hs & Hc).
  assert (forall lit,
             no_digit lit = true -> re_search lit pre = None ->
             re_search lit
               (pre +:+ PyStr.str_int f +:+ " failed, " +:+ PyStr.str_int p
                  +:+ " passed" +:+ post)
             = re_search lit
                 (PyStr.str_int f +:+ " failed, " +:+ PyStr.str_int p
                    +:+ " passed" +:+ post)) as Hskip.
  { intros lit Hlit Hnone. rewrite Hs.
    change (String c s +:+ ?t) with (String c (s +:+ t)).
    now apply re_search_skip_prefix. }
  assert (re_search " failed"
            (pre +:+ PyStr.str_int f +:+ " failed, " +:+ PyStr.str_int p
               +:+ " passed" +:+ post) = Some (PyStr.str_int f)) as Hfailed.
  { rewrite Hskip by (reflexivity || assumption).
    change (" failed, " +:+ PyStr.str_int p +:+ " passed" +:+ post)
      with (" failed" +:+ (", " +:+ PyStr.str_int p +:+ " passed" +:+ post)).
    apply re_search_count; (assumption || reflexivity || discriminate). }
  assert (re_search " passed"
            (pre +:+ PyStr.str_int f +:+ " failed, " +:+ PyStr.str_int p
               +:+ " passed" +:+ post) = Some (PyStr.str_int p)) as Hpassed.
  { rewrite Hskip by (reflexivity || assumption).
    rewrite re_search_skip_run;
      try (assumption || reflexivity || discriminate).
    rewrite (re_search_skip_no_digit " passed" " failed, ") by reflexivity.
    apply re_search_count; (assumption || reflexivity || discriminate). }
  unfold _parse_test_results. rewrite Hfailed, Hpassed. cbn [count_or_zero].
  rewrite !int_of_str_int by lia.
  destruct (Z.eqb_spec p 0); [lia|]. reflexivity.
Qed.

(** X1. The two counts the parser returns are never negative, as long as
    the requested total is not. *)
Theorem parsed_counts_nonnegative (output : string) (total_tests : Z) :
  (0 <= total_tests)%Z ->
  (0 <= fst (_parse_test_results output total_tests))%Z
  /\ (0 <= snd (_parse_test_results output total_tests))%Z.
Proof.
  intros Htotal. unfold _parse_test_results.
  pose proof (count_or_zero_nonneg " passed" output).
  pose proof (count_or_zero_nonneg " failed" output).
  destruct ((_ =? 0)%Z && (_ =? 0)%Z); [|now split].
  destruct (PyStr.contains "passed" (PyStr.lower output)); now split.
Qed.

Lemma parsed_counts_nonnegative_witness :
  (0 <= fst (_parse_test_results "=== 1 failed, 2 passed in 0.05s ===" 3))%Z
  /\ (0 <= snd (_parse_test_results "=== 1 failed, 2 passed in 0.05s ===" 3))%Z.
Proof.
  apply (parsed_counts_nonnegative "=== 1 failed, 2 passed in 0.05s ===" 3).
  lia.
Defined.

(** X2. A summary line is read back exactly: after text in which neither
    count pattern occurs and which does not end with a digit,
    "F failed, P passed" with F and P positive gives [(P, F)], whatever the
    requested total and whatever follows. *)
Theorem summary_line_read_back (pre post : string) (p f total_tests : Z) :
  re_search " passed" pre = None ->
  re_search " failed" pre = None ->
  last_is_digit pre = false ->
  (0 < p)%Z -> (0 < f)%Z ->
  _parse_test_results
    (pre +:+ PyStr.str_int f +:+ " failed, " +:+ PyStr.str_int p
       +:+ " passed" +:+ post) total_tests
  = (p, f).
Proof. apply summary_counts. Qed.

Lemma summary_line_read_back_witness :
  _parse_test_results
    ("test_coverage.py::test_case_0 PASSED [ 33%] === "
       +:+ PyStr.str_int 1 +:+ " failed, " +:+ PyStr.str_int 2
       +:+ " passed" +:+ " in 0.05s ===") 3
  = (2, 1)%Z.
Proof.
  apply (summary_line_read_back
           "test_coverage.py::test_case_0 PASSED [ 33%] === "
           " in 0.05s ===" 2 1 3);
    [reflexivity | reflexivity | reflexivity | lia | lia].
Defined.

(** X3. The first count wins: after text in which the pass-count pattern
    does not occur and which does not end with a digit, "P passed" with P
    positive makes the pass count P whatever comes after it, a later
    "M passed" included. *)
Theorem first_pass_count_wins (pre post : string) (p total_tests : Z) :
  re_search " passed" pre = None ->
  last_is_digit pre = false ->
  (0 < p)%Z ->
  fst (_parse_test_results
         (pre +:+ PyStr.str_int p +:+ " passed" +:+ post) total_tests)
  = p.
Proof.
  intros Hpre Hlast Hp.
  destruct (str_int_digits p ltac:(lia)) as [Hdp Hnp].
  destruct (str_int_head p ltac:(lia)) as (c & s & Hs & Hc).
  assert (re_search " passed"
            (pre +:+ PyStr.str_int p +:+ " passed" +:+ post)
          = Some (PyStr.str_int p)) as Hpassed.
  { transitivity (re_search " passed"
                    (PyStr.str_int p +:+ " passed" +:+ post)).
    - rewrite Hs. change (String c s +:+ ?t) with (String c (s +:+ t)).
      now apply re_search_skip_prefix.
    - apply re_search_count; (assumption || reflexivity || discriminate). }
  unfold _parse_test_results. rewrite Hpassed.
  cbn [count_or_zero]. rewrite int_of_str_int by lia.
  destruct (Z.eqb_spec p 0); [lia|]. reflexivity.
Qed.

Lemma first_pass_count_wins_witness :
  fst (_parse_test_results
         ("collected 9 items: " +:+ PyStr.str_int 2 +:+ " passed"
            +:+ ", later 7 passed") 9)
  = 2%Z.
Proof.
  apply (first_pass_count_wins "collected 9 items: " ", later 7 passed" 2 9);
    [reflexivity | reflexivity | lia].
Defined.

(** ** Interpreter: which inputs give which message *)

Lemma float_zero_below_50 (b : float) :
  (b =? 0)%float = true -> (b <? 50)%float = true.
Proof.
  rewrite FloatAxioms.eqb_spec, FloatAxioms.ltb_spec.
  assert (Prim2SF 0 = S754_zero false) as -> by (vm_compute; reflexivity).
  assert (Prim2SF 50 = S754_finite false 7036874417766400 (-47)) as ->
      by (vm_compute; reflexivity).
  unfold SFeqb, SFltb, SFcompare.
  destruct (Prim2SF b) as [s|s| |s m e]; try destruct s;
    (discriminate || reflexivity).
Qed.

Lemma float_at_least_90_nonzero (b : float) :
  (90 <=? b)%float = true -> (b =? 0)%float = false.
Proof.
  rewrite FloatAxioms.eqb_spec, FloatAxioms.leb_spec.
  assert (Prim2SF 0 = S754_zero false) as -> by (vm_compute; reflexivity).
  assert (Prim2SF 90 = S754_finite false 6333186975989760 (-46)) as ->
      by (vm_compute; reflexivity).
  unfold SFeqb, SFleb, SFcompare.
  destruct (Prim2SF b) as [s|s| |s m e]; try destruct s;
    (discriminate || reflexivity).
Qed.

Lemma failure_message_long (failed : Z) :
  41 <= String.length
          (PyStr.str_int failed +:+ " test(s) failed - fix failing tests first").
Proof. rewrite length_append. simpl. lia. Qed.

(** X4. The interpreter answers "Excellent coverage - well-tested code"
    exactly when no test failed and both line coverage and a present branch
    coverage are at least 90. *)
Theorem excellent_iff
    (passed failed : Z) (line_cov : float) (branch_cov : option float) :
  _generate_interpretation passed failed line_cov branch_cov
    = "Excellent coverage - well-tested code"
  <-> ((failed <= 0)%Z
       /\ (90 <=? line_cov)%float = true
       /\ exists b, branch_cov = Some b /\ (90 <=? b)%float = true).
Proof.
  unfold _generate_interpretation. split.
  - destruct (Z.ltb_spec 0 failed) as [Hf|Hf].
    { intros H. pose proof (failure_message_long failed) as Hlen.
      rewrite H in Hlen. simpl in Hlen. lia. }
    destruct (line_cov <? 50)%float; [discriminate|].
    destruct (line_cov <? 80)%float; [discriminate|].
    destruct branch_cov as [b|]; cbn [truthy].
    + destruct (b <? 50)%float; [discriminate|].
      destruct (b <? 80)%float; [discriminate|].
      destruct (90 <=? line_cov)%float; [|discriminate].
      destruct (negb (b =? 0)%float); cbn [andb]; [|discriminate].
      destruct (90 <=? b)%float eqn:Hb; [|discriminate].
      intros _. split; [lia|]. split; [reflexivity|]. now exists b.
    + destruct (90 <=? line_cov)%float; discriminate.
  - intros (Hf & Hline & b & -> & Hb).
    destruct (Z.ltb_spec 0 failed); [lia|].
    destruct (at_least_90_not_below _ Hline) as [-> ->].
    destruct (at_least_90_not_below _ Hb) as [-> ->].
    cbn [truthy]. now rewrite Hline, Hb, (float_at_least_90_nonzero _ Hb).
Qed.

Lemma excellent_iff_witness :
  _generate_interpretation 12 0 100 (Some 92.5%float)
  = "Excellent coverage - well-tested code".
Proof.
  apply (proj2 (excellent_iff 12 0 100 (Some 92.5%float))).
  split; [lia|]. split; [reflexivity|]. exists 92.5%float. now split.
Defined.

(** X5. "Good line coverage achieved" is answered only without branch data:
    it is the answer exactly when no test failed, branch coverage is absent
    and line coverage is at least 90.  A branch coverage of zero is
    reported as low branch coverage, never as absent. *)
Theorem good_line_coverage_iff
    (passed failed : Z) (line_cov : float) (branch_cov : option float) :
  _generate_interpretation passed failed line_cov branch_cov
    = "Good line coverage achieved"
  <-> ((failed <= 0)%Z /\ branch_cov = None
       /\ (90 <=? line_cov)%float = true).
Proof.
  unfold _generate_interpretation. split.
  - destruct (Z.ltb_spec 0 failed) as [Hf|Hf].
    { intros H. pose proof (failure_message_long failed) as Hlen.
      rewrite H in Hlen. simpl in Hlen. lia. }
    destruct (line_cov <? 50)%float; [discriminate|].
    destruct (line_cov <? 80)%float; [discriminate|].
    destruct branch_cov as [b|]; cbn [truthy].
    + destruct (b <? 50)%float eqn:H50; [discriminate|].
      destruct (b <? 80)%float; [discriminate|].
      destruct (90 <=? line_cov)%float; [|discriminate].
      destruct (b =? 0)%float eqn:Hz; cbn [negb andb].
      * rewrite (float_zero_below_50 _ Hz) in H50. discriminate.
      * destruct (90 <=? b)%float; discriminate.
    + destruct (90 <=? line_cov)%float; [|discriminate].
      intros _. split; [lia|]. now split.
  - intros (Hf & -> & Hline).
    destruct (Z.ltb_spec 0 failed); [lia|].
    destruct (at_least_90_not_below _ Hline) as [-> ->].
    now rewrite Hline.
Qed.

Lemma good_line_coverage_iff_witness :
  _generate_interpretation 4 0 91 None = "Good line coverage achieved".
Proof.
  apply (proj2 (good_line_coverage_iff 4 0 91 None)).
  split; [lia|]. split; reflexivity.
Defined.

Lemma interpretation_nonempty passed failed line_cov branch_cov :
  _generate_interpretation passed failed line_cov branch_cov <> "".
Proof.
  unfold _generate_interpretation.
  destruct (0 <? failed)%Z.
  { intros H. pose proof (failure_message_long failed) as Hlen.
    rewrite H in Hlen. simpl in Hlen. lia. }
  destruct (line_cov <? 50)%float; [discriminate|].
  destruct (line_cov <? 80)%float; [discriminate|].
  destruct branch_cov as [b|]; cbn [truthy].
  - destruct (b <? 50)%float; [discriminate|].
    destruct (b <? 80)%float; [discriminate|].
    destruct (90 <=? line_cov)%float; [|discriminate].
    destruct (negb (b =? 0)%float); cbn [andb]; [|discriminate].
    destruct (90 <=? b)%float; discriminate.
  - destruct (90 <=? line_cov)%float; discriminate.
Qed.

(** ** Target inspector: what can be returned *)

(** X6. The inspector never returns a private name: whatever the file
    holds, the result does not begin with an underscore. *)
Theorem extracted_name_is_public (parsed : option (list ast)) :
  PyStr.startswith (_extract_function_name parsed) "_" = false.
Proof.
  unfold _extract_function_name. destruct parsed as [body|]; [|reflexivity].
  destruct (first_public (walk (Node Module body))) as [name|] eqn:E;
    [|reflexivity].
  apply first_public_some in E as (n & _ & Hp).
  now apply public_function_name in Hp as [_ Hp].
Qed.

Lemma first_public_by_level name : forall d q fuel,
  forest_size q <= fuel ->
  (forall k, k < d -> first_public (level k q) = None) ->
  first_public (level d q) = Some name ->
  first_public (walk_loop fuel q) = Some name.
Proof.
  induction d as [|d IH]; intros q fuel Hfuel Habove Hhere;
    pose proof (forest_size_levels q) as Hsize;
    rewrite <- (app_nil_r q), walk_loop_levels, first_public_app by lia.
  - simpl in Hhere. now rewrite Hhere.
  - pose proof (Habove 0 ltac:(lia)) as Htop. simpl in Htop.
    rewrite Htop. simpl app. apply IH.
    + lia.
    + intros k Hk. apply (Habove (S k)). lia.
    + exact Hhere.
Qed.

(** X7. Shallowest first: when no level of the tree above depth [d] holds
    a public function definition and level [d] does, the inspector returns
    the first one of level [d], whatever lies deeper or earlier in the
    text of the file. *)
Theorem shallowest_public_function_first
    (body : list ast) (d : nat) (name : string) :
  (forall k, k < d -> first_public (level k [Node Module body]) = None) ->
  first_public (level d [Node Module body]) = Some name ->
  _extract_function_name (Some body) = name.
Proof.
  intros Habove Hhere. unfold _extract_function_name, walk.
  rewrite (first_public_by_level name d); try assumption; [reflexivity|].
  rewrite forest_size_cons. unfold forest_size. simpl. lia.
Qed.

Lemma shallowest_public_function_first_witness :
  _extract_function_name
    (Some [Node (ClassDef "Helper")
             [Node (FunctionDef "_setup")
                [Node (FunctionDef "deep") []]];
           Node (ClassDef "Solver") [Node (FunctionDef "run") []]])
  = "run".
Proof.
  apply (shallowest_public_function_first _ 2 "run").
  - intros k Hk.
    destruct k as [|[|k]]; [reflexivity | reflexivity | lia].
  - reflexivity.
Defined.

(** ** Harness generator: the assertion line *)

Lemma strip_blank s : all_space s = true -> PyStr.strip s = "".
Proof.
  unfold PyStr.strip. induction s as [|c s IH]; [reflexivity|].
  simpl. intros H. apply andb_true_iff in H as [-> H]. now apply IH.
Qed.


(** X9. A blank test case (empty or whitespace only) gives a unit whose
    statement is the bare keyword followed by a space, with no
    expression. *)
Theorem blank_test_case_gives_bare_assert (i : nat) (test_case : string) :
  all_space test_case = true ->
  test_function i test_case
  = "def test_case_" +:+ PyStr.str_int (Z.of_nat i) +:+ "():" +:+ PyStr.nl +:+
    "    " +:+ triple_quote +:+ "Test case "
      +:+ PyStr.str_int (Z.of_nat i + 1) +:+ triple_quote +:+ PyStr.nl +:+
    "    assert " +:+ PyStr.nl +:+ PyStr.nl.
Proof.
  intros H. unfold test_function. rewrite (strip_blank _ H). reflexivity.
Qed.

Lemma blank_test_case_gives_bare_assert_witness :
  test_function 0 "   "
  = "def test_case_0():" +:+ PyStr.nl +:+
    "    " +:+ triple_quote +:+ "Test case 1" +:+ triple_quote +:+ PyStr.nl +:+
    "    assert " +:+ PyStr.nl +:+ PyStr.nl.
Proof. apply (blank_test_case_gives_bare_assert 0 "   "). reflexivity. Defined.

Lemma add_test_functions_app l1 : forall i l2 test_content,
  add_test_functions i (l1 ++ l2) test_content
  = add_test_functions (i + length l1) l2 (add_test_functions i l1 test_content).
Proof.
  induction l1 as [|t l1 IH]; intros i l2 test_content; simpl.
  - now rewrite Nat.add_0_r.
  - rewrite IH. f_equal. lia.
Qed.

(** X10. Appending test cases only appends units: the module for
    [l1 ++ l2] is the module for [l1] followed by the units of [l2],
    numbered from [len(l1)]; the units of [l1] are unchanged. *)
Theorem harness_of_appended_tests
    (solution_dir solution_module func_name : string)
    (l1 l2 : list string) :
  harness_text solution_dir solution_module func_name (l1 ++ l2)
  = harness_text solution_dir solution_module func_name l1
    +:+ splice (imap (fun j => test_function (length l1 + j)) l2).
Proof.
  unfold harness_text.
  now rewrite add_test_functions_app, add_test_functions_splice.
Qed.

Lemma decimal_prefix_unique (a b ra rb : string) :
  PyStr.all_digits a = true -> PyStr.all_digits b = true ->
  digit_run ra = 0 -> digit_run rb = 0 ->
  a +:+ ra = b +:+ rb -> a = b.
Proof.
  intros Ha Hb Hra Hrb Heq.
  assert (String.length a = String.length b) as Hlen.
  { rewrite <- (digit_run_append a ra), <- (digit_run_append b rb) by assumption.
    now rewrite Heq. }
  rewrite <- (take_length_append a ra), <- (take_length_append b rb).
  now rewrite Heq, Hlen.
Qed.

(** X11. Unit identifiers are index-addressable: units generated at
    different indices are different texts, whatever their test cases (the
    decimal index alone tells [test_case_1] from [test_case_10]). *)
Theorem distinct_indices_distinct_units (i j : nat) (tc tc' : string) :
  i <> j -> test_function i tc <> test_function j tc'.
Proof.
  intros Hij H. apply Hij. unfold test_function in H.
  apply (String.app_inj "def test_case_") in H.
  destruct (str_int_digits (Z.of_nat i) ltac:(lia)) as [Hi _].
  destruct (str_int_digits (Z.of_nat j) ltac:(lia)) as [Hj _].
  apply decimal_prefix_unique in H; try assumption; try reflexivity.
  apply (f_equal PyStr.int_of_digits) in H.
  rewrite !int_of_str_int in H by lia. lia.
Qed.

Lemma distinct_indices_distinct_units_witness :
  test_function 1 "f(1) == 1" <> test_function 10 "f(1) == 1".
Proof.
  apply (distinct_indices_distinct_units 1 10 "f(1) == 1" "f(1) == 1"). lia.
Defined.

(** ** Orchestrator: failures, effects and the disk *)



(** X13. When launching the external tool raises (for instance because it
    is not installed), the call returns the UnexpectedFailure record with
    the exception's message verbatim; the harness had been written and the
    tool was launched once, in the workspace, before the workspace is
    removed. *)
Theorem pytest_launch_failure_reported
    self w st python_file test_cases pid message :
  python_file ∈ fs st ->
  w_write_harness w = None ->
  w_pytest w = RunError message ->
  exists st',
    analyze self w python_file test_cases pid st
    = (Ret (aborted_result pid test_cases ("Error: " +:+ message) [message]),
       st')
    /\ trace st'
       = trace st
         ++ [EvMkdtemp (w_tmpdir w);
             EvWriteFile (path_join (w_tmpdir w) "test_coverage.py")
               (harness_text (w_parent_absolute w python_file)
                  (w_stem w python_file)
                  (_extract_function_name (w_parse_source w python_file))
                  test_cases);
             EvRunPytest
               (pytest_cmd (path_join (w_tmpdir w) "test_coverage.py")
                  (w_stem w python_file)
                  (path_join (w_tmpdir w) "coverage.json")
                  (path_join (w_tmpdir w) "htmlcov"))
               (w_tmpdir w);
             EvRmtree (w_tmpdir w)].
Proof.
  intros Hin Hw Hp. run_monad.
  rewrite bool_decide_eq_true_2 by now apply present_after_mkdtemp.
  cbn [negb]. rewrite Hw. cbn [fs trace]. rewrite Hp.
  destruct (w_rmtree_ok w); cbn [fs trace]; eexists;
    (split; [reflexivity|]); cbn [trace]; now rewrite <- !app_assoc.
Qed.

Lemma pytest_launch_failure_reported_witness :
  exists st',
    analyze Sample.pipeline
      (Sample.world_with
         (RunError "[Errno 2] No such file or directory: 'pytest'") true)
      Sample.source Sample.tests "demo" Sample.with_source
    = (Ret (aborted_result "demo" Sample.tests
              "Error: [Errno 2] No such file or directory: 'pytest'"
              ["[Errno 2] No such file or directory: 'pytest'"]), st').
Proof.
  destruct (pytest_launch_failure_reported Sample.pipeline
              (Sample.world_with
                 (RunError "[Errno 2] No such file or directory: 'pytest'")
                 true)
              Sample.with_source Sample.source Sample.tests "demo"
              "[Errno 2] No such file or directory: 'pytest'")
    as (st' & Hrun & _).
  - change (Sample.source ∈ ({[Sample.source]} : gset string)).
    now apply elem_of_singleton_2.
  - reflexivity.
  - reflexivity.
  - exists st'. exact Hrun.
Defined.

(** X14. Whatever happens, the record a call returns has a non-empty
    interpretation. *)
Theorem interpretation_always_set self w st python_file test_cases pid :
  exists r st',
    analyze self w python_file test_cases pid st = (Ret r, st')
    /\ interpretation r <> "".
Proof.
  destruct (analyze_exits self w st python_file test_cases pid)
    as (r & st' & Hrun & Hexit).
  exists r, st'. split; [exact Hrun|].
  destruct (exit_path_of w st python_file).
  - destruct Hexit as (? & ? & ? & ? & _ & _ & _ & -> & _).
    apply interpretation_nonempty.
  - subst r. discriminate.
  - subst r. discriminate.
  - destruct Hexit as [message ->]. discriminate.
Qed.

Lemma cleanup_restores_fresh_disk (tmp : string) (X : gset string) :
  (forall p, p ∈ X -> under tmp p = false) ->
  filter (fun p => under tmp p = false) ({[tmp]} ∪ X) = X.
Proof.
  intros Hfresh. apply set_eq. intros p.
  rewrite elem_of_filter, elem_of_union, elem_of_singleton. split.
  - intros [Hu [-> | Hp]]; [|exact Hp].
    rewrite under_refl in Hu. discriminate.
  - intros Hp. split; [now apply Hfresh | now right].
Qed.

Lemma under_join dir name : under dir (path_join dir name) = true.
Proof.
  unfold under, path_join. rewrite <- append_assoc, prefix_append.
  apply orb_true_r.
Qed.

Lemma filter_drops_under (tmp q : string) (X : gset string) :
  under tmp q = true ->
  filter (fun p => under tmp p = false) ({[q]} ∪ X)
  = filter (fun p => under tmp p = false) X.
Proof.
  intros Hq. apply set_eq. intros p.
  rewrite !elem_of_filter, elem_of_union, elem_of_singleton. split.
  - intros [Hu [-> | Hp]]; [congruence | now split].
  - intros [Hu Hp]. split; [exact Hu | now right].
Qed.

(** X15. A call that starts no child process (the source is missing, or the
    harness cannot be written) leaves the disk exactly as it found it,
    provided the removal of the workspace succeeds and nothing existed
    under the workspace name before. *)
Theorem disk_unchanged_without_child_process
    self w st python_file test_cases pid :
  ((python_file ∉ fs st) /\ python_file <> w_tmpdir w)
  \/ ((python_file ∈ fs st) /\ w_write_harness w <> None) ->
  w_rmtree_ok w = true ->
  (forall p, p ∈ fs st -> under (w_tmpdir w) p = false) ->
  exists r st',
    analyze self w python_file test_cases pid st = (Ret r, st')
    /\ fs st' = fs st.
Proof.
  intros Hcase Hok Hfresh. run_monad. rewrite Hok.
  destruct Hcase as [[Hmiss Hne] | [Hin Hw]].
  - rewrite bool_decide_eq_false_2 by now apply missing_after_mkdtemp.
    cbn [negb fs trace]. eexists _, _. split; [reflexivity|]. cbn [fs].
    now apply cleanup_restores_fresh_disk.
  - rewrite bool_decide_eq_true_2 by now apply present_after_mkdtemp.
    cbn [negb]. destruct (w_write_harness w) as [message|]; [|contradiction].
    destruct (w_harness_opened w); cbn [fs trace]; eexists _, _;
      (split; [reflexivity|]); cbn [fs];
      rewrite ?(filter_drops_under _ _ _ (under_join _ _));
      now apply cleanup_restores_fresh_disk.
Qed.

Lemma disk_unchanged_without_child_process_witness :
  exists r st',
    analyze Sample.pipeline
      (Sample.world_with (Completed "2 passed" "" true true) true)
      "/home/u/missing.py" Sample.tests "demo" Sample.with_source
    = (Ret r, st')
    /\ fs st' = fs Sample.with_source.
Proof.
  apply (disk_unchanged_without_child_process Sample.pipeline
           (Sample.world_with (Completed "2 passed" "" true true) true)
           Sample.with_source "/home/u/missing.py" Sample.tests "demo").
  - left. split; [|discriminate].
    change ("/home/u/missing.py" ∉ ({[Sample.source]} : gset string)).
    rewrite elem_of_singleton. discriminate.
  - reflexivity.
  - intros p Hp.
    change (p ∈ ({[Sample.source]} : gset string)) in Hp.
    apply elem_of_singleton in Hp as ->. reflexivity.
Defined.

Lemma path_join_inj dir a b : path_join dir a = path_join dir b -> a = b.
Proof.
  unfold path_join. intros H.
  apply (String.app_inj dir) in H. now apply (String.app_inj "/") in H.
Qed.

Lemma path_join_not_dir dir name : path_join dir name <> dir.
Proof.
  unfold path_join. intros H. apply (f_equal String.length) in H.
  rewrite !length_append in H. simpl in H. lia.
Qed.

(** X16. When the run completes without leaving a coverage summary in the
    workspace, every coverage field of the result is zero (branch coverage
    absent), and unless a failure is reported the interpretation is the
    low-line-coverage message. *)
Theorem missing_summary_reads_zero
    self w st python_file test_cases pid stdout stderr wrote_html :
  python_file ∈ fs st ->
  w_write_harness w = None ->
  w_pytest w = Completed stdout stderr false wrote_html ->
  path_join (w_tmpdir w) "coverage.json" ∉ fs st ->
  exists r st',
    analyze self w python_file test_cases pid st = (Ret r, st')
    /\ line_coverage r = 0%float
    /\ statement_coverage r = 0%float
    /\ branch_coverage r = None
    /\ statements_covered r = 0%Z
    /\ statements_total r = 0%Z
    /\ ((tests_failed r <= 0)%Z ->
        interpretation r
        = "Low line coverage - significant untested code paths").
Proof.
  intros Hin Hw Hp Hfresh.
  assert (forall X : gset string,
             (X = ∅ \/ X = {[path_join (w_tmpdir w) "htmlcov"]}) ->
             path_join (w_tmpdir w) "coverage.json"
             ∉ X ∪ ({[path_join (w_tmpdir w) "test_coverage.py"]}
                    ∪ ({[w_tmpdir w]} ∪ fs st))) as Habsent.
  { intros X HX. rewrite !elem_of_union, !elem_of_singleton.
    intros [H | [H | [H | H]]].
    - destruct HX as [-> | ->]; [now apply not_elem_of_empty in H|].
      apply elem_of_singleton, path_join_inj in H. discriminate.
    - apply path_join_inj in H. discriminate.
    - now apply path_join_not_dir in H.
    - contradiction. }
  run_monad.
  rewrite bool_decide_eq_true_2 by now apply present_after_mkdtemp.
  cbn [negb]. rewrite Hw. cbn [fs trace]. rewrite Hp. cbn [fs trace].
  destruct wrote_html; cbn [fs trace].
  - rewrite (bool_decide_eq_false_2
               (path_join (w_tmpdir w) "coverage.json" ∈ _))
      by (apply Habsent; now right).
    cbn [negb fs trace].
    split_flags; try use_publisher;
      destruct (w_rmtree_ok w); cbn [fs trace];
      eexists _, _; (split; [reflexivity|]);
      cbn [line_coverage statement_coverage branch_coverage
             statements_covered statements_total tests_failed interpretation];
      repeat (split; [reflexivity|]);
      intros Hf; unfold _generate_interpretation;
      destruct (Z.ltb_spec 0 (snd (_parse_test_results (stdout +:+ stderr)
                                     (Z.of_nat (length test_cases)))));
      (lia || reflexivity).
  - rewrite (bool_decide_eq_false_2
               (path_join (w_tmpdir w) "coverage.json" ∈ _)).
    2:{ intros H. apply (Habsent ∅); [now left|].
        apply elem_of_union. now right. }
    cbn [negb fs trace].
    split_flags; try use_publisher;
      destruct (w_rmtree_ok w); cbn [fs trace];
      eexists _, _; (split; [reflexivity|]);
      cbn [line_coverage statement_coverage branch_coverage
             statements_covered statements_total tests_failed interpretation];
      repeat (split; [reflexivity|]);
      intros Hf; unfold _generate_interpretation;
      destruct (Z.ltb_spec 0 (snd (_parse_test_results (stdout +:+ stderr)
                                     (Z.of_nat (length test_cases)))));
      (lia || reflexivity).
Qed.

Lemma missing_summary_reads_zero_witness :
  exists r st',
    analyze Sample.pipeline
      (Sample.world_with
         (Completed "test_coverage.py::test_case_0 PASSED" "" false false)
         true)
      Sample.source Sample.tests "demo" Sample.with_source
    = (Ret r, st')
    /\ line_coverage r = 0%float
    /\ interpretation r
       = "Low line coverage - significant untested code paths".
Proof.
  destruct (missing_summary_reads_zero Sample.pipeline
              (Sample.world_with
                 (Completed "test_coverage.py::test_case_0 PASSED" ""
                    false false) true)
              Sample.with_source Sample.source Sample.tests "demo"
              "test_coverage.py::test_case_0 PASSED" "" false)
    as (r & st' & Hrun & Hline & _ & _ & _ & _ & Hinterp).
  - change (Sample.source ∈ ({[Sample.source]} : gset string)).
    now apply elem_of_singleton_2.
  - reflexivity.
  - reflexivity.
  - change ("/tmp/pytest_cov_k3x9/coverage.json"
            ∉ ({[Sample.source]} : gset string)).
    rewrite elem_of_singleton. discriminate.
  - exists r, st'. split; [exact Hrun|]. split; [exact Hline|].
    apply Hinterp.
    assert (tests_failed r = 0%Z) as ->; [|lia].
    injection Hrun as <- _. reflexivity.
Defined.

(** X17. A report path is only ever returned for a run that completed and
    whose report was copied: the path in the result is either empty or
    [os.path.join(os.path.join(output_dir, problem_id), 'index.html')], and
    in the second case the call took the normal exit, the copy succeeded and
    the copy of the workspace's HTML tree to
    [os.path.join(output_dir, problem_id)] is among its effects. *)
Theorem report_path_only_after_publishing
    self w st python_file test_cases pid :
  exists r st',
    analyze self w python_file test_cases pid st = (Ret r, st')
    /\ (html_report_path r = ""
        \/ (html_report_path r
            = os_path_join (os_path_join (output_dir self) pid) "index.html"
            /\ exit_path_of w st python_file = NormalExit
            /\ w_copy_ok w = true
            /\ In (EvCopyTree (path_join (w_tmpdir w) "htmlcov")
                     (os_path_join (output_dir self) pid))
                 (trace st'))).
Proof.
  destruct (analyze_normal_form self w st python_file test_cases pid)
    as (r & st' & new & Hrun & Htrace & Hnew & Hempty & _).
  exists r, st'. split; [exact Hrun|].
  destruct Hnew as [H | [H | (evs & _ & -> & [Hpath | Hpath])]].
  - left. apply Hempty. now left.
  - left. apply Hempty. now right.
  - left. exact Hpath.
  - right. destruct Hpath as (Hp & Hexit & Hcopy & Hin).
    repeat (split; [assumption|]).
    rewrite Htrace, !in_app_iff. right. right. now left.
Qed.

(** X18. The effects of a call follow one fixed order.  A call creates the
    workspace first and attempts its removal last.  In between it does
    nothing; or only creates a harness file it could not write; or writes
    the harness and launches the external tool once, after which the
    publisher may remove a report directory that was already there and may
    call the copy, in that order.  The tool is never launched twice, and
    never before the harness is written. *)
Theorem effects_follow_protocol self w st python_file test_cases pid :
  let harness := path_join (w_tmpdir w) "test_coverage.py" in
  let created := EvCreateFile harness in
  let written :=
    EvWriteFile harness
      (harness_text (w_parent_absolute w python_file) (w_stem w python_file)
         (_extract_function_name (w_parse_source w python_file)) test_cases) in
  let launched :=
    EvRunPytest
      (pytest_cmd harness (w_stem w python_file)
         (path_join (w_tmpdir w) "coverage.json")
         (path_join (w_tmpdir w) "htmlcov"))
      (w_tmpdir w) in
  let cleared := EvRmtree (os_path_join (output_dir self) pid) in
  let published :=
    EvCopyTree (path_join (w_tmpdir w) "htmlcov")
      (os_path_join (output_dir self) pid) in
  exists r st' middle,
    analyze self w python_file test_cases pid st = (Ret r, st')
    /\ (middle = []
        \/ middle = [created]
        \/ middle = [written; launched]
        \/ middle = [written; launched; published]
        \/ middle = [written; launched; cleared; published]
        \/ middle = [written; launched; cleared])
    /\ trace st'
       = trace st ++ [EvMkdtemp (w_tmpdir w)] ++ middle
           ++ [EvRmtree (w_tmpdir w)].
Proof.
  intros harness created written launched cleared published.
  destruct (analyze_normal_form self w st python_file test_cases pid)
    as (r & st' & new & Hrun & Htrace & Hnew & _ & _).
  destruct Hnew as [-> | [-> | (evs & Hevs & -> & _)]].
  - exists r, st', []. split; [exact Hrun|]. split; [tauto | exact Htrace].
  - exists r, st', [created]. split; [exact Hrun|].
    split; [tauto | exact Htrace].
  - exists r, st', ([written; launched] ++ evs). split; [exact Hrun|].
    split; [|rewrite Htrace; subst harness written launched;
             now rewrite <- !app_assoc].
    destruct Hevs as [-> | [-> | [-> | ->]]]; cbn [app]; tauto.
Qed.

Lemma exit_when_completed w st python_file stdout stderr wrote_json wrote_html :
  python_file ∈ fs st -> w_write_harness w = None ->
  w_pytest w = Completed stdout stderr wrote_json wrote_html ->
  exit_path_of w st python_file = NormalExit.
Proof.
  intros Hin Hw Hp. unfold exit_path_of.
  rewrite bool_decide_eq_true_2 by now apply present_after_mkdtemp.
  now rewrite Hw, Hp.
Qed.

(** X19. End to end: when the run completes and its output holds the
    summary "F failed, P passed" (F and P positive, no earlier match of
    either count pattern, whatever is printed after it and on the error
    stream), the result reports P passed, F failed and the interpretation
    "F test(s) failed - fix failing tests first", whatever the coverage. *)
Theorem failing_summary_end_to_end
    self w st python_file test_cases pid
    (pre post stderr : string) (p f : Z) (wrote_json wrote_html : bool) :
  python_file ∈ fs st ->
  w_write_harness w = None ->
  w_pytest w
  = Completed (pre +:+ PyStr.str_int f +:+ " failed, " +:+ PyStr.str_int p
                 +:+ " passed" +:+ post) stderr wrote_json wrote_html ->
  re_search " passed" pre = None ->
  re_search " failed" pre = None ->
  last_is_digit pre = false ->
  (0 < p)%Z -> (0 < f)%Z ->
  exists r st',
    analyze self w python_file test_cases pid st = (Ret r, st')
    /\ tests_passed r = p
    /\ tests_failed r = f
    /\ interpretation r
       = PyStr.str_int f +:+ " test(s) failed - fix failing tests first".
Proof.
  intros Hin Hw Hpy Hpp Hpf Hlast Hp Hf.
  destruct (analyze_exits self w st python_file test_cases pid)
    as (r & st' & Hrun & Hexit).
  rewrite (exit_when_completed _ _ _ _ _ _ _ Hin Hw Hpy) in Hexit.
  destruct Hexit as (out & err & wj & wh & Hpy' & _ & Hcounts & Hinterp & _).
  rewrite Hpy in Hpy'.
  assert (out = pre +:+ PyStr.str_int f +:+ " failed, " +:+ PyStr.str_int p
                  +:+ " passed" +:+ post) as -> by congruence.
  assert (err = stderr) as -> by congruence.
  rewrite !append_assoc in Hcounts.
  rewrite (summary_counts pre (post +:+ stderr) p f _ Hpp Hpf Hlast Hp Hf)
    in Hcounts.
  injection Hcounts as Hrp Hrf.
  exists r, st'. split; [exact Hrun|]. split; [exact Hrp|]. split; [exact Hrf|].
  rewrite Hinterp, Hrf. unfold _generate_interpretation.
  destruct (Z.ltb_spec 0 f); [reflexivity | lia].
Qed.

Lemma failing_summary_end_to_end_witness :
  exists r st',
    analyze Sample.pipeline
      (Sample.world_with
         (Completed
            ("test_coverage.py::test_case_1 FAILED [100%] === "
               +:+ PyStr.str_int 1 +:+ " failed, " +:+ PyStr.str_int 1
               +:+ " passed" +:+ " in 0.04s ===") "" true true) true)
      Sample.source Sample.tests "demo" Sample.with_source
    = (Ret r, st')
    /\ tests_passed r = 1%Z
    /\ tests_failed r = 1%Z
    /\ interpretation r = "1 test(s) failed - fix failing tests first".
Proof.
  apply (failing_summary_end_to_end Sample.pipeline
           (Sample.world_with
              (Completed
                 ("test_coverage.py::test_case_1 FAILED [100%] === "
                    +:+ PyStr.str_int 1 +:+ " failed, " +:+ PyStr.str_int 1
                    +:+ " passed" +:+ " in 0.04s ===") "" true true) true)
           Sample.with_source Sample.source Sample.tests "demo"
           "test_coverage.py::test_case_1 FAILED [100%] === "
           " in 0.04s ===" "" 1 1 true true).
  - change (Sample.source ∈ ({[Sample.source]} : gset string)).
    now apply elem_of_singleton_2.
  - reflexivity.
  - reflexivity.
  - reflexivity.
  - reflexivity.
  - reflexivity.
  - lia.
  - lia.
Defined.

(** X20. The record returned for a missing source file: no test passed,
    all counted as failed, every coverage field zero, no report path, and
    one error detail that names the missing path. *)
Theorem missing_source_record self w st python_file test_cases pid :
  python_file ∉ fs st ->
  python_file <> w_tmpdir w ->
  exists st',
    analyze self w python_file test_cases pid st
    = (Ret {| problem_id := pid;
              tests_passed := 0;
              tests_failed := Z.of_nat (length test_cases);
              total_tests := Z.of_nat (length test_cases);
              line_coverage := 0;
              statement_coverage := 0;
              branch_coverage := None;
              statements_covered := 0;
              statements_total := 0;
              interpretation := "Error: Python file not found";
              error_details := ["File not found: " +:+ python_file];
              html_report_path := "" |}, st').
Proof.
  intros Hmiss Hne.
  destruct (analyze_exits self w st python_file test_cases pid)
    as (r & st' & Hrun & Hexit).
  rewrite (exit_when_source_missing _ _ _ Hmiss Hne) in Hexit. subst r.
  exists st'. exact Hrun.
Qed.

Lemma missing_source_record_witness :
  exists st',
    analyze Sample.pipeline
      (Sample.world_with (Completed "2 passed" "" true true) true)
      Sample.source Sample.tests "demo" Sample.empty_disk
    = (Ret (aborted_result "demo" Sample.tests "Error: Python file not found"
              ["File not found: /home/u/solution.py"]), st').
Proof.
  apply (missing_source_record Sample.pipeline
           (Sample.world_with (Completed "2 passed" "" true true) true)
           Sample.empty_disk Sample.source Sample.tests "demo").
  - apply not_elem_of_empty.
  - discriminate.
Defined.

(** X21. Whatever the test cases, the generated module imports the
    inspected function from the solution module under its own name and
    binds the alias [candidate] to it. *)
Theorem harness_imports_and_aliases
    (solution_dir solution_module func_name : string)
    (test_cases : list string) :
  PyStr.contains
    ("    from " +:+ solution_module +:+ " import " +:+ func_name +:+ PyStr.nl)
    (harness_text solution_dir solution_module func_name test_cases) = true
  /\ PyStr.contains
       ("candidate = " +:+ func_name +:+ PyStr.nl)
       (harness_text solution_dir solution_module func_name test_cases) = true.
Proof.
  unfold harness_text. rewrite add_test_functions_splice.
  set (units := splice _). split.
  - replace (harness_header solution_dir solution_module func_name +:+ units)
      with (("# Auto-generated pytest test file" +:+ PyStr.nl +:+
             "import sys" +:+ PyStr.nl +:+
             "sys.path.insert(0, r'" +:+ solution_dir +:+ "')" +:+ PyStr.nl +:+
             PyStr.nl +:+ "try:" +:+ PyStr.nl)
            +:+ (("    from " +:+ solution_module +:+ " import " +:+ func_name
                    +:+ PyStr.nl)
                 +:+ ("except ImportError as e:" +:+ PyStr.nl +:+
                      "    print(f" +:+ PyStr.dquote +:+ "Import error: {e}"
                        +:+ PyStr.dquote +:+ ")" +:+ PyStr.nl +:+
                      "    " +:+ func_name +:+ " = None" +:+ PyStr.nl +:+
                      PyStr.nl +:+
                      "# Create alias 'candidate' to call the actual function"
                        +:+ PyStr.nl +:+
                      "candidate = " +:+ func_name +:+ PyStr.nl +:+
                      PyStr.nl +:+ units))).
    + apply contains_append.
    + unfold harness_header. now rewrite !append_assoc.
  - replace (harness_header solution_dir solution_module func_name +:+ units)
      with (("# Auto-generated pytest test file" +:+ PyStr.nl +:+
             "import sys" +:+ PyStr.nl +:+
             "sys.path.insert(0, r'" +:+ solution_dir +:+ "')" +:+ PyStr.nl +:+
             PyStr.nl +:+ "try:" +:+ PyStr.nl +:+
             "    from " +:+ solution_module +:+ " import " +:+ func_name
               +:+ PyStr.nl +:+
             "except ImportError as e:" +:+ PyStr.nl +:+
             "    print(f" +:+ PyStr.dquote +:+ "Import error: {e}"
               +:+ PyStr.dquote +:+ ")" +:+ PyStr.nl +:+
             "    " +:+ func_name +:+ " = None" +:+ PyStr.nl +:+
             PyStr.nl +:+
             "# Create alias 'candidate' to call the actual function"
               +:+ PyStr.nl)
            +:+ (("candidate = " +:+ func_name +:+ PyStr.nl)
                 +:+ (PyStr.nl +:+ units))).
    + apply contains_append.
    + unfold harness_header. now rewrite !append_assoc.
Qed.
